(** * ETF screener: the analytics engine of [server_fixed.py]

    A shallow embedding of the record builder ([get_etf_data]), its helpers
    ([safe_bool], [safe_float], [get_expense_ratio], [convert_to_python_types])
    and the batch loop ([get_etfs]), followed by the properties proved of them.

    - Numbers are IEEE binary64 values, as Python's [float] and pandas'
      float64 columns are: Rocq's primitive [float], whose operations the
      kernel evaluates and whose specification ([Prim2SF], [SF64div], ...) the
      proofs use.  Python integers are [Z].
    - Exceptions are an error monad; every [try]/[except] of the source is a
      [try_except] here, and a function that can raise returns a [result].
    - Strings are ASCII texts.
    - The quote ([etf.info]) is a record of the keys that the program reads;
      a numeric key is missing, [None], an int or a float (NaN and the
      infinities included), a name key is missing, [None] or a string.
    - The price history is the list of its rows, oldest first.
    - The libraries are NumPy 1.x (the source names [np.float_]) and a
      pandas of its time (1.5 or later); what the program calls of them is
      modelled as they compute it, rolling means included.
    - The market-data client is a pair of functions that may raise. *)

From Stdlib Require Import ZArith List String Ascii Bool Lia Floats DecimalString.
Import ListNotations.

Set Warnings "-inexact-float".

Local Open Scope string_scope.
Local Open Scope Z_scope.

(* ================================================================== *)
(** * 1. Exceptions *)
(* ================================================================== *)

(** The exception classes that the modelled code can meet.  [ProviderError]
    stands for whatever the market-data client raises. *)
Inductive exn : Type :=
| TypeError
| ValueError
| OverflowError
| IndexError
| ProviderError.

Inductive result (A : Type) : Type :=
| Ok (a : A)
| Raise (e : exn).

Arguments Ok {A} a.
Arguments Raise {A} e.

Definition bind {A B : Type} (m : result A) (k : A -> result B) : result B :=
  match m with
  | Ok a => k a
  | Raise e => Raise e
  end.

Notation "x <- m ;; k" := (bind m (fun x => k))
  (at level 61, m at next level, right associativity).

(** [try: body / except: handler] with a bare [except] (or [except Exception]). *)
Definition try_except {A : Type} (body : result A) (handler : exn -> result A) : result A :=
  match body with
  | Ok a => Ok a
  | Raise e => handler e
  end.

(* ================================================================== *)
(** * 2. Python values and builtins *)
(* ================================================================== *)

(** The scalars that flow through the program: [None], [bool], [int],
    [float] and [str]. *)
Inductive pyval : Type :=
| PNone
| PBool (b : bool)
| PInt (z : Z)
| PFloat (f : float)
| PStr (s : string).

(** A value as a helper may be handed it: a scalar, or a list of scalars. *)
Inductive pyarg : Type :=
| Scalar (v : pyval)
| PList (items : list pyval).

Coercion Scalar : pyval >-> pyarg.

(** A Python [dict] with string keys, in insertion order. *)
Definition dict : Type := list (string * pyval).

Fixpoint dict_get (k : string) (d : dict) : option pyval :=
  match d with
  | [] => None
  | (k', v) :: d' => if String.eqb k k' then Some v else dict_get k d'
  end.

Definition dict_keys (d : dict) : list string := map fst d.

(** ** Floats *)

(** Truth value of a float: [x != 0.0] (a NaN is true). *)
Definition float_truthy (x : float) : bool := negb (x =? 0)%float.

Definition float_of_nat (n : nat) : float := of_uint63 (Uint63.of_Z (Z.of_nat n)).

(** [int(x)] for a float: truncation toward zero; NaN raises [ValueError],
    an infinity [OverflowError]. *)
Definition py_int (x : float) : result Z :=
  match Prim2SF x with
  | S754_nan => Raise ValueError
  | S754_infinity _ => Raise OverflowError
  | S754_zero _ => Ok 0
  | S754_finite s m e => Ok (cond_Zopp s (Z.shiftl (Zpos m) e))
  end.

(** [float(z)] for an int: the nearest double, ties to even;
    [OverflowError] when that would be an infinity. *)
Definition float_of_int (z : Z) : result float :=
  match binary_normalize prec emax z 0 false with
  | S754_infinity _ => Raise OverflowError
  | sf => Ok (SF2Prim sf)
  end.

(** The double nearest to the rational [±num/den] (ties to even): the
    correctly rounded quotient of the two integers. *)
Definition nearest_double (s : bool) (num den : positive) : float :=
  SF2Prim (SF64div (S754_finite s num 0) (S754_finite false den 0)).

(** [q] rounded to an integer, ties to even, for [q = num/den >= 0]. *)
Definition div_half_even (num : Z) (den : positive) : Z :=
  let q := num / Zpos den in
  let r := num mod Zpos den in
  match 2 * r ?= Zpos den with
  | Lt => q
  | Gt => q + 1
  | Eq => if Z.even q then q else q + 1
  end.

(** [round(x, ndigits)] for a float and [ndigits >= 0]: CPython renders [x]
    exactly in decimal, rounds that to [ndigits] places (ties to even) and
    reads the result back as the nearest double.  Infinities and NaN round to
    themselves. *)
Definition py_round (x : float) (ndigits : N) : float :=
  match Prim2SF x with
  | S754_finite s m e =>
      let p10 := match ndigits with N0 => 1%positive | Npos n => Pos.pow 10 n end in
      let k :=
        match e with
        | Zneg sh => div_half_even (Zpos (m * p10)) (Pos.pow 2 sh)
        | _ => Z.shiftl (Zpos (m * p10)) e
        end in
      match k with
      | Zpos kp => nearest_double s kp p10
      | _ => if s then neg_zero else zero
      end
  | _ => x
  end.

(** ** Strings *)

Definition is_upper (c : ascii) : bool :=
  ((65 <=? nat_of_ascii c) && (nat_of_ascii c <=? 90))%nat.

Definition lower_ascii (c : ascii) : ascii :=
  if is_upper c then ascii_of_nat (nat_of_ascii c + 32) else c.

(** [s.lower()], on ASCII text. *)
Fixpoint lower (s : string) : string :=
  match s with
  | EmptyString => EmptyString
  | String c s' => String (lower_ascii c) (lower s')
  end.

(** [kw in s] for two strings: [kw] occurs in [s] as a substring. *)
Fixpoint contains (kw s : string) : bool :=
  String.prefix kw s ||
  match s with
  | EmptyString => false
  | String _ s' => contains kw s'
  end.

(** [s[:n]] *)
Definition str_take (n : nat) (s : string) : string := substring 0 n s.

(** [str(z)] for an int. *)
Definition str_of_int (z : Z) : string := NilZero.string_of_int (Z.to_int z).

(** [str(v)] where [v] is a string or [None]. *)
Definition str_of_name (v : option string) : string :=
  match v with
  | Some s => s
  | None => "None"
  end.

(** ** [float(s)] for a string

    CPython strips surrounding white space (of an ASCII text: the characters
    9 to 13 and the blank), checks that every underscore
    stands between two digits and drops it, then reads an optional sign
    followed by [inf], [infinity] or [nan] (in any case) or by a decimal
    number with an optional exponent; anything else is a [ValueError].  The
    value is the double nearest to the decimal number. *)

Definition is_space (c : ascii) : bool :=
  let n := nat_of_ascii c in
  (((9 <=? n) && (n <=? 13)) || (n =? 32))%nat.

Definition is_digit (c : ascii) : bool :=
  ((48 <=? nat_of_ascii c) && (nat_of_ascii c <=? 57))%nat.

Definition digit_val (c : ascii) : Z := Z.of_nat (nat_of_ascii c - 48).

Fixpoint lstrip (l : list ascii) : list ascii :=
  match l with
  | c :: l' => if is_space c then lstrip l' else l
  | [] => []
  end.

Definition strip (l : list ascii) : list ascii := rev (lstrip (rev (lstrip l))).

(** Drops the underscores of [l]; [None] when one does not stand between two
    digits.  [prev] is the character before [l]. *)
Fixpoint drop_underscores (prev : option ascii) (l : list ascii) : option (list ascii) :=
  match l with
  | [] =>
      match prev with
      | Some "_"%char => None
      | _ => Some []
      end
  | c :: l' =>
      if Ascii.eqb c "_" then
        match prev with
        | Some p => if is_digit p then drop_underscores (Some c) l' else None
        | None => None
        end
      else
        match prev with
        | Some "_"%char =>
            if is_digit c then option_map (cons c) (drop_underscores (Some c) l') else None
        | _ => option_map (cons c) (drop_underscores (Some c) l')
        end
  end.

(** The leading digits of [l] as (their value so far, their number, the rest). *)
Fixpoint take_digits (acc : Z) (n : nat) (l : list ascii) : Z * nat * list ascii :=
  match l with
  | c :: l' => if is_digit c then take_digits (10 * acc + digit_val c) (S n) l' else (acc, n, l)
  | [] => (acc, n, [])
  end.

Definition take_sign (l : list ascii) : bool * list ascii :=
  match l with
  | "-"%char :: l' => (true, l')
  | "+"%char :: l' => (false, l')
  | _ => (false, l)
  end.

(** [±mant * 10^scale] as a double. *)
Definition decimal_to_float (s : bool) (mant : Z) (scale : Z) : float :=
  match mant with
  | Zpos m =>
      match scale with
      | Zneg k => nearest_double s m (Pos.pow 10 k)
      | Zpos k => nearest_double s (m * Pos.pow 10 k) 1
      | Z0 => nearest_double s m 1
      end
  | _ => if s then neg_zero else zero
  end.

Definition parse_exponent (l : list ascii) : option Z :=
  match l with
  | [] => Some 0
  | c :: l' =>
      if Ascii.eqb c "e" || Ascii.eqb c "E" then
        let '(neg, l'') := take_sign l' in
        match take_digits 0 0 l'' with
        | (_, O, _) => None
        | (v, _, []) => Some (if neg then - v else v)
        | _ => None
        end
      else None
  end.

Definition parse_number (s : bool) (l : list ascii) : option float :=
  let '(ip, ni, l1) := take_digits 0 0 l in
  let '(mant, nf, l2) :=
    match l1 with
    | "."%char :: l1' => take_digits ip 0 l1'
    | _ => (ip, O, l1)
    end in
  match (ni + nf)%nat with
  | O => None
  | _ =>
      match parse_exponent l2 with
      | Some ex => Some (decimal_to_float s mant (ex - Z.of_nat nf))
      | None => None
      end
  end.

Definition float_of_str (str : string) : result float :=
  match drop_underscores None (strip (list_ascii_of_string str)) with
  | None => Raise ValueError
  | Some l =>
      let '(s, body) := take_sign l in
      let word := lower (string_of_list_ascii body) in
      if String.eqb word "inf" || String.eqb word "infinity" then
        Ok (if s then neg_infinity else infinity)
      else if String.eqb word "nan" then Ok nan
      else
        match parse_number s body with
        | Some f => Ok f
        | None => Raise ValueError
        end
  end.

(** [float(value)] *)
Definition py_float (value : pyarg) : result float :=
  match value with
  | Scalar PNone => Raise TypeError
  | Scalar (PBool b) => Ok (if b then 1 else 0)%float
  | Scalar (PInt z) => float_of_int z
  | Scalar (PFloat f) => Ok f
  | Scalar (PStr s) => float_of_str s
  | PList _ => Raise TypeError
  end.

(** [bool(v)] *)
Definition py_bool (v : pyval) : bool :=
  match v with
  | PNone => false
  | PBool b => b
  | PInt z => negb (z =? 0)
  | PFloat f => float_truthy f
  | PStr s => negb (String.eqb s "")
  end.

Definition is_None (v : pyval) : bool :=
  match v with
  | PNone => true
  | _ => false
  end.

(** [a and b]: [b] is evaluated only when [a] is true. *)
Definition py_and (a : pyval) (b : result pyval) : result pyval :=
  if py_bool a then b else Ok a.

(** Exact comparison of a float with an int, as Python compares them. *)
Definition float_cmp_int (x : float) (z : Z) : option comparison :=
  match Prim2SF x with
  | S754_nan => None
  | S754_infinity s => Some (if s then Lt else Gt)
  | S754_zero _ => Some (0 ?= z)
  | S754_finite s m e =>
      match e with
      | Zneg sh => Some (cond_Zopp s (Zpos m) ?= z * Zpos (Pos.pow 2 sh))
      | _ => Some (cond_Zopp s (Z.shiftl (Zpos m) e) ?= z)
      end
  end.

(** A Python number: an int or a float. *)
Inductive num : Type :=
| NInt (z : Z)
| NFloat (f : float).

(** The number that a value is in a comparison ([True] is 1, [False] 0). *)
Definition as_num (v : pyval) : option num :=
  match v with
  | PBool b => Some (NInt (if b then 1 else 0))
  | PInt z => Some (NInt z)
  | PFloat f => Some (NFloat f)
  | _ => None
  end.

Definition num_gt (a b : num) : bool :=
  match a, b with
  | NInt x, NInt y => y <? x
  | NFloat x, NFloat y => (y <? x)%float
  | NFloat x, NInt y => match float_cmp_int x y with Some Gt => true | _ => false end
  | NInt x, NFloat y => match float_cmp_int y x with Some Lt => true | _ => false end
  end.

(** [a > b]: numbers by value, strings in lexicographic order; comparing
    [None], or a string with a number, is a [TypeError]. *)
Definition py_gt (a b : pyval) : result pyval :=
  match as_num a, as_num b with
  | Some x, Some y => Ok (PBool (num_gt x y))
  | _, _ =>
      match a, b with
      | PStr s, PStr t => Ok (PBool (String.ltb t s))
      | _, _ => Raise TypeError
      end
  end.

(* ================================================================== *)
(** * 3. pandas: float64 series *)
(* ================================================================== *)

(** The operations of pandas that the program calls, as pandas computes
    them on a float64 column. *)

Definition Series : Type := list float.

(** [pd.isna(v)] for a scalar [v]: a bool. *)
Definition pd_isna_scalar (v : pyval) : bool :=
  match v with
  | PNone => true
  | PFloat f => is_nan f
  | _ => false
  end.

(** What [pd.isna] returns: a bool for a scalar, an array of bools, one for
    each element, for a list. *)
Inductive isna_result : Type :=
| IsnaBool (b : bool)
| IsnaArray (bs : list bool).

(** [pd.isna(obj)] *)
Definition pd_isna (obj : pyarg) : isna_result :=
  match obj with
  | Scalar v => IsnaBool (pd_isna_scalar v)
  | PList items => IsnaArray (map pd_isna_scalar items)
  end.

(** The truth value of what [pd.isna] returned, as [if] and [or] take it:
    that of an array of two elements or more is a [ValueError]; that of an
    empty array is false. *)
Definition isna_truth (r : isna_result) : result bool :=
  match r with
  | IsnaBool b => Ok b
  | IsnaArray [] => Ok false
  | IsnaArray [b] => Ok b
  | IsnaArray (_ :: _ :: _) => Raise ValueError
  end.

(** [s.iloc[-1]] *)
Definition iloc_last (s : Series) : result float :=
  match s with
  | [] => Raise IndexError
  | _ => Ok (last s nan)
  end.

(** ** Rolling mean

    [s.rolling(n).mean()] replaces the infinities by NaN ([_prep_values])
    and then runs [roll_mean]: one pass that keeps the count and the
    compensated (Kahan) sum of the values of the window that are not NaN,
    adding the value that enters the window ([add_mean]) after removing the
    one that leaves it ([remove_mean]).  [min_periods] is the window
    length.  The window has two rows or more (the program's have 14, 50, 150
    and 200): only then is the state carried from each row to the next. *)

(** The variables of [roll_mean]. *)
Record mean_state : Type := {
  nobs : nat;
  sum_x : float;
  neg_ct : nat;
  compensation_add : float;
  compensation_remove : float;
  num_consecutive_same_value : nat;
  prev_value : float
}.

(** [signbit(x)] of a number. *)
Definition signbit (x : float) : bool :=
  match Prim2SF x with
  | S754_zero s | S754_infinity s | S754_finite s _ _ => s
  | S754_nan => false
  end.

Definition add_mean (val : float) (st : mean_state) : mean_state :=
  if (val =? val)%float then
    let y := (val - compensation_add st)%float in
    let t := (sum_x st + y)%float in
    {| nobs := S (nobs st);
       sum_x := t;
       neg_ct := if signbit val then S (neg_ct st) else neg_ct st;
       compensation_add := (t - sum_x st - y)%float;
       compensation_remove := compensation_remove st;
       num_consecutive_same_value :=
         if (val =? prev_value st)%float then S (num_consecutive_same_value st)
         else 1%nat;
       prev_value := val |}
  else st.

Definition remove_mean (val : float) (st : mean_state) : mean_state :=
  if (val =? val)%float then
    let y := (- val - compensation_remove st)%float in
    let t := (sum_x st + y)%float in
    {| nobs := Nat.pred (nobs st);
       sum_x := t;
       neg_ct := if signbit val then Nat.pred (neg_ct st) else neg_ct st;
       compensation_add := compensation_add st;
       compensation_remove := (t - sum_x st - y)%float;
       num_consecutive_same_value := num_consecutive_same_value st;
       prev_value := prev_value st |}
  else st.

Definition calc_mean (minp : nat) (st : mean_state) : float :=
  if ((minp <=? nobs st) && (0 <? nobs st))%nat then
    let result := (sum_x st / float_of_nat (nobs st))%float in
    if (nobs st <=? num_consecutive_same_value st)%nat then prev_value st
    else if (neg_ct st =? 0)%nat && (result <? 0)%float then 0%float
    else if (neg_ct st =? nobs st)%nat && (0 <? result)%float then 0%float
    else result
  else nan.

(** The rows from the current one on: [entering] holds the values still to
    enter the window, [leaving] the values from the oldest one of the window
    on, [wait] the number of rows before the first value leaves. *)
Fixpoint roll_mean_rows (window : nat) (wait : nat) (leaving entering : Series)
    (st : mean_state) : Series :=
  match entering with
  | [] => []
  | val :: entering' =>
      let '(st1, leaving', wait') :=
        match wait, leaving with
        | S w, _ => (st, leaving, w)
        | O, old :: rest => (remove_mean old st, rest, O)
        | O, [] => (st, [], O)
        end in
      let st2 := add_mean val st1 in
      calc_mean window st2 :: roll_mean_rows window wait' leaving' entering' st2
  end.

Definition roll_mean (values : Series) (window : nat) : Series :=
  roll_mean_rows window window values values
    {| nobs := 0; sum_x := 0; neg_ct := 0;
       compensation_add := 0; compensation_remove := 0;
       num_consecutive_same_value := 0;
       prev_value := hd nan values |}.

(** [_prep_values]: an infinity counts as a missing value. *)
Definition prep_values (s : Series) : Series :=
  map (fun x => if is_infinity x then nan else x) s.

(** [s.rolling(n).mean()] *)
Definition rolling_mean (n : nat) (s : Series) : Series :=
  roll_mean (prep_values s) n.

(** [s.max()]: the largest value that is not NaN; NaN when there is none. *)
Definition series_max (s : Series) : float :=
  match
    fold_left
      (fun (acc : option float) (x : float) =>
         if is_nan x then acc
         else match acc with
              | None => Some x
              | Some a => Some (if (a <? x)%float then x else a)
              end)
      s None
  with
  | Some m => m
  | None => nan
  end.

(** [s.diff()] *)
Fixpoint diff_from (prev : float) (s : Series) : Series :=
  match s with
  | [] => []
  | x :: s' => (x - prev)%float :: diff_from x s'
  end.

Definition series_diff (s : Series) : Series :=
  match s with
  | [] => []
  | x :: s' => nan :: diff_from x s'
  end.

(** [s.where(cond, other)] *)
Definition series_where (cond : float -> bool) (other : float) (s : Series) : Series :=
  map (fun x => if cond x then x else other) s.

(** [-s] *)
Definition series_neg (s : Series) : Series := map opp s.

(** [a / b], element by element (the two series share their index). *)
Fixpoint series_div (a b : Series) : Series :=
  match a, b with
  | x :: a', y :: b' => (x / y)%float :: series_div a' b'
  | _, _ => []
  end.

(* ================================================================== *)
(** * 4. Data model *)
(* ================================================================== *)

(** One row of the price history. *)
Record PriceBar : Type := {
  bar_open : float;
  bar_high : float;
  bar_low : float;
  bar_close : float;
  bar_volume : float
}.

(** [etf.history(period="1y")]: the rows in date order. *)
Definition PriceSeries : Type := list PriceBar.

Definition hist_empty (hist : PriceSeries) : bool :=
  match hist with
  | [] => true
  | _ => false
  end.

Definition hist_close (hist : PriceSeries) : Series := map bar_close hist.
Definition hist_high (hist : PriceSeries) : Series := map bar_high hist.

(** A key of the quote dictionary: missing, mapped to [None], or mapped to a
    value. *)
Inductive field (A : Type) : Type :=
| Missing
| Null
| Val (a : A).

Arguments Missing {A}.
Arguments Null {A}.
Arguments Val {A} a.

Definition num_val (n : num) : pyval :=
  match n with
  | NInt z => PInt z
  | NFloat f => PFloat f
  end.

(** [etf.info]: the keys that the program reads.  The numeric keys hold a
    number (possibly NaN or infinite) or [None]; the name keys a string or
    [None]. *)
Record QuoteSnapshot : Type := {
  regularMarketPrice : field num;
  currentPrice : field num;
  regularMarketVolume : field num;
  fiftyTwoWeekHigh : field num;
  totalAssets : field num;
  marketCap : field num;
  regularMarketPreviousClose : field num;
  longName : field string;
  shortName : field string;
  annualReportExpenseRatio : field num;
  expenseRatio : field num;
  annualExpenseRatio : field num;
  prospectusNetExpenseRatio : field num;
  managementExpenseRatio : field num
}.

(** [info.get(key, default)] on a numeric key. *)
Definition info_get (f : field num) (default : pyval) : pyval :=
  match f with
  | Missing => default
  | Null => PNone
  | Val n => num_val n
  end.

(** [info.get(key, default)] on a name key; [None] is Python's [None]. *)
Definition info_get_name (f : field string) (default : option string) : option string :=
  match f with
  | Missing => default
  | Null => None
  | Val s => Some s
  end.

(** The market-data client: [yf.Ticker(ticker).info] and
    [yf.Ticker(ticker).history(period="1y")], either of which may raise. *)
Record Provider : Type := {
  yf_info : string -> result QuoteSnapshot;
  yf_history : string -> result PriceSeries
}.

Inductive AssetClass : Type :=
| Equity
| FixedIncome
| Commodity.

Definition asset_name (a : AssetClass) : string :=
  match a with
  | Equity => "Equity"
  | FixedIncome => "Fixed Income"
  | Commodity => "Commodity"
  end.

(** The JSON body that [get_etfs] returns, with its HTTP status. *)
Record Response : Type := {
  status : string;
  count : option nat;
  message : option string;
  data : list dict;
  http_status : nat
}.

(* ================================================================== *)
(** * 5. The program *)
(* ================================================================== *)

Definition ETF_TICKERS : list string :=
  [ "SPY"; "QQQ"; "IVV"; "VOO"; "VTI"; "BND"; "AGG"; "GLD"; "SLV"; "IEFA";
    "EEM"; "VWO"; "TLT"; "IWM"; "XLK"; "XLV"; "XLE"; "XLF"; "XLI"; "XLB";
    "XLP"; "XLU"; "XLY"; "SMH"; "SOXX"; "IBB"; "KBE"; "KRE"; "USO"; "UNG";
    "HYG"; "LQD"; "SHY"; "IEI"; "TIP"; "VNQ"; "DBC"; "GDX"; "GDXJ"; "EWJ";
    "MCHI"; "FXI"; "INDA"; "EPI"; "EWZ"; "ARKK"; "ARKW"; "ARKG"; "QCLN"; "TAN";
    "ICLN"; "PBW"; "XBI"; "LABU"; "BLOK"; "FINX"; "LIT"; "REMX"; "URA"; "KOL";
    "SCHD"; "VYM"; "VIG"; "NOBL"; "SPHD"; "JEPI"; "JEPQ"; "DIVO"; "SCHG"; "VUG";
    "IVW"; "IJR"; "IJH"; "IJS"; "IJT"; "AVUV"; "AVDV"; "AVEM"; "AVDE"; "AVUS" ].

(** [safe_bool(value)] *)
Definition safe_bool (value : pyval) : bool :=
  if negb (is_None value) then py_bool value else false.

(** [safe_float(value, default=0.0)]: the test of [value] stands before the
    [try]; the conversion inside it. *)
Definition safe_float (value : pyarg) (default : float) : result float :=
  c <- match value with
       | Scalar PNone => Ok true
       | _ => isna_truth (pd_isna value)
       end ;;
  if c then Ok default
  else try_except (py_float value) (fun _ => Ok default).

Definition known_expenses : list (string * float) :=
  [ ("SPY", 0.0945); ("QQQ", 0.20); ("IVV", 0.04); ("VOO", 0.03); ("VTI", 0.03);
    ("BND", 0.03); ("AGG", 0.03); ("GLD", 0.40); ("SLV", 0.50); ("IEFA", 0.07);
    ("EEM", 0.68); ("VWO", 0.08); ("TLT", 0.15); ("IWM", 0.19); ("XLK", 0.10);
    ("XLV", 0.10); ("XLE", 0.10); ("XLF", 0.10); ("XLI", 0.10); ("XLB", 0.10);
    ("XLP", 0.10); ("XLU", 0.10); ("XLY", 0.10); ("SMH", 0.35); ("SOXX", 0.35);
    ("IBB", 0.45); ("KBE", 0.35); ("KRE", 0.35); ("USO", 0.60); ("UNG", 0.60);
    ("HYG", 0.49); ("LQD", 0.14); ("SHY", 0.15); ("IEI", 0.15); ("TIP", 0.19);
    ("VNQ", 0.12); ("DBC", 0.85); ("GDX", 0.51); ("GDXJ", 0.51); ("EWJ", 0.49);
    ("MCHI", 0.59); ("FXI", 0.74); ("INDA", 0.64); ("EPI", 0.59); ("EWZ", 0.59);
    ("ARKK", 0.75); ("ARKW", 0.75); ("ARKG", 0.75); ("QCLN", 0.40); ("TAN", 0.65);
    ("ICLN", 0.46); ("PBW", 0.60); ("XBI", 0.35); ("LABU", 1.48); ("BLOK", 0.75);
    ("FINX", 0.68); ("LIT", 0.75); ("REMX", 0.65); ("URA", 0.70); ("KOL", 0.65);
    ("SCHD", 0.06); ("VYM", 0.06); ("VIG", 0.06); ("NOBL", 0.35); ("SPHD", 0.28);
    ("JEPI", 0.35); ("JEPQ", 0.35); ("DIVO", 0.50); ("SCHG", 0.04); ("VUG", 0.04);
    ("IVW", 0.18); ("IJR", 0.06); ("IJH", 0.05); ("IJS", 0.18); ("IJT", 0.18);
    ("AVUV", 0.25); ("AVDV", 0.36); ("AVEM", 0.33); ("AVDE", 0.27); ("AVUS", 0.15) ]%float.

(** [known_expenses.get(ticker)] *)
Fixpoint expense_lookup (ticker : string) (table : list (string * float)) : option float :=
  match table with
  | [] => None
  | (k, v) :: table' => if String.eqb ticker k then Some v else expense_lookup ticker table'
  end.

(** The quote keys that may hold the expense ratio, in the order they are
    tried. *)
Definition expense_fields (info : QuoteSnapshot) : list (field num) :=
  [ annualReportExpenseRatio info;
    expenseRatio info;
    annualExpenseRatio info;
    prospectusNetExpenseRatio info;
    managementExpenseRatio info ].

(** [value and not pd.isna(value) and value > 0], as a condition. *)
Definition expense_usable (value : pyval) : result bool :=
  v1 <- py_and value (Ok (PBool (negb (pd_isna_scalar value)))) ;;
  v2 <- py_and v1 (py_gt value (PInt 0)) ;;
  Ok (py_bool v2).

(** The [for field in expense_fields] loop: the first usable value, if any. *)
Fixpoint scan_expense (values : list pyval) : result (option float) :=
  match values with
  | [] => Ok None
  | value :: rest =>
      ok <- expense_usable value ;;
      if ok then (x <- safe_float value 0 ;; Ok (Some x))
      else scan_expense rest
  end.

Definition get_expense_ratio (info : QuoteSnapshot) (ticker : string) : result float :=
  found <- scan_expense (map (fun f => info_get f PNone) (expense_fields info)) ;;
  match found with
  | Some x => Ok x
  | None =>
      Ok match expense_lookup ticker known_expenses with
         | Some x => x
         | None => 0.30%float
         end
  end.

(** ** The asset class *)

Definition bond_keywords : list string :=
  [ "bond"; "treasury"; "aggregate"; "fixed income"; "corporate bond"; "municipal" ].

Definition commodity_keywords : list string :=
  [ "gold"; "silver"; "oil"; "commodity"; "metals"; "energy"; "natural gas" ].

Definition bond_tickers : list string :=
  [ "bnd"; "agg"; "tlt"; "shy"; "iei"; "lqd"; "hyg" ].

Definition commodity_tickers : list string :=
  [ "gld"; "slv"; "uso"; "ung"; "dbc" ].

(** [any(kw in s for kw in kws)] *)
Definition any_in (kws : list string) (s : string) : bool :=
  existsb (fun kw => contains kw s) kws.

Definition asset_class (name ticker : string) : AssetClass :=
  let name_lower := lower name in
  let ticker_lower := lower ticker in
  if any_in bond_keywords name_lower || any_in bond_tickers ticker_lower then FixedIncome
  else if any_in commodity_keywords name_lower || any_in commodity_tickers ticker_lower
       then Commodity
       else Equity.

(** ** Moving averages *)

(** [smaN]: [None] unless the history has [n] rows. *)
Definition sma (hist : PriceSeries) (n : nat) : result (option float) :=
  if negb (hist_empty hist) && (n <=? List.length hist)%nat then
    m <- iloc_last (rolling_mean n (hist_close hist)) ;;
    x <- safe_float (PFloat m) 0 ;;
    Ok (Some x)
  else Ok None.

Definition py_opt (o : option float) : pyval :=
  match o with
  | Some x => PFloat x
  | None => PNone
  end.

(** ** The resolved quote values *)

Definition price_of (info : QuoteSnapshot) (hist : PriceSeries) : result float :=
  last_close <-
    (if negb (hist_empty hist)
     then (c <- iloc_last (hist_close hist) ;; Ok (PFloat c))
     else Ok (PInt 0)) ;;
  safe_float
    (info_get (regularMarketPrice info) (info_get (currentPrice info) last_close)) 0.

Definition volume_of (info : QuoteSnapshot) : result float :=
  safe_float (info_get (regularMarketVolume info) (PInt 0)) 0.

Definition week52_high_of (info : QuoteSnapshot) (hist : PriceSeries) (price : float)
  : result float :=
  safe_float
    (info_get (fiftyTwoWeekHigh info)
       (if negb (hist_empty hist) then PFloat (series_max (hist_high hist))
        else PFloat price)) 0.

Definition aum_of (info : QuoteSnapshot) : result float :=
  safe_float (info_get (totalAssets info) (info_get (marketCap info) (PInt 0))) 0.

Definition name_of (info : QuoteSnapshot) (ticker : string) : string :=
  str_of_name (info_get_name (longName info) (info_get_name (shortName info) (Some ticker))).

Definition prev_close_of (info : QuoteSnapshot) (price : float) : result float :=
  safe_float (info_get (regularMarketPreviousClose info) (PFloat (price * 0.99))) 0.

(** ** Technical rules *)

Definition near_52w_pct_of (price week52_high : float) : result float :=
  c <- py_and (PFloat week52_high) (py_gt (PFloat week52_high) (PInt 0)) ;;
  safe_float
    (Scalar (if py_bool c then PFloat (price / week52_high * 100) else PInt 100)) 0.

Definition close_above_52w_of (price week52_high : float) : bool :=
  safe_bool (PBool (week52_high * 0.98 <=? price)%float).

(** [safe_bool(a and b and a > b)] *)
Definition sma_gt (a b : option float) : result bool :=
  v1 <- py_and (py_opt a) (Ok (py_opt b)) ;;
  v2 <- py_and v1 (py_gt (py_opt a) (py_opt b)) ;;
  Ok (safe_bool v2).

(** [safe_bool(sma200 and price > sma200)] *)
Definition sma200_slope_of (sma200 : option float) (price : float) : result bool :=
  v <- py_and (py_opt sma200) (py_gt (PFloat price) (py_opt sma200)) ;;
  Ok (safe_bool v).

(** ** RSI *)

(** The last value of [gain] and of [loss]: the 14-row means of the rises and
    of the falls of the close. *)
Definition rsi_gain (hist : PriceSeries) : Series :=
  let delta := series_diff (hist_close hist) in
  rolling_mean 14 (series_where (fun d => (0 <? d)%float) 0 delta).

Definition rsi_loss (hist : PriceSeries) : Series :=
  let delta := series_diff (hist_close hist) in
  rolling_mean 14 (series_neg (series_where (fun d => (d <? 0)%float) 0 delta)).

Definition rsi_of (hist : PriceSeries) : result Z :=
  if negb (hist_empty hist) && (14 <=? List.length hist)%nat then
    try_except
      (let gain := rsi_gain hist in
       let loss := rsi_loss hist in
       let rs := series_div gain loss in
       rs_last <- iloc_last rs ;;
       let rsi_val := (100 - 100 / (1 + rs_last))%float in
       if negb (pd_isna_scalar (PFloat rsi_val)) then
         (x <- safe_float (PFloat rsi_val) 0 ;; py_int x)
       else Ok 50%Z)
      (fun _ => Ok 50%Z)
  else Ok 50%Z.

(** ** The liquidity score *)

Definition lwowski_of (aum volume : float) : result Z :=
  c <- py_and (PFloat aum) (Ok (PFloat volume)) ;;
  if py_bool c then
    x <- safe_float (PFloat (aum / 1e6 * (volume / 1e6) / 100)) 0 ;;
    l <- py_int x ;;
    Ok (Z.max 1000 (Z.min 99999 l))
  else Ok 5000%Z.

(** ['aum': str(int(aum/1e6)) if aum else 'N/A'] *)
Definition aum_text (aum : float) : result string :=
  if py_bool (PFloat aum) then
    (m <- py_int (aum / 1e6) ;; Ok (str_of_int m))
  else Ok "N/A".

(** ** The record *)

(** [convert_to_python_types] on the values this program builds: native
    scalars are kept, a NaN becomes [None], a dict is converted value by
    value. *)
Definition convert_scalar (v : pyval) : pyval :=
  if pd_isna_scalar v then PNone else v.

Definition convert_to_python_types (d : dict) : dict :=
  map (fun kv => (fst kv, convert_scalar (snd kv))) d.

(** The [result = {...}] literal. *)
Definition result_dict (ticker name : string) (asset : AssetClass) (lwowski : Z)
    (price : float) (close_above_52w sma50_gt_sma150 sma150_gt_sma200 sma200_slope : bool)
    (aum_s : string) (rsi : Z) (near_52w_pct week52_high prev_close volume expense_ratio : float)
  : dict :=
  [ ("ticker", PStr ticker);
    ("name", PStr (str_take 60 name));
    ("asset", PStr (asset_name asset));
    ("lwowski", PInt lwowski);
    ("price", PFloat (py_round price 2));
    ("closeAbove52w", PBool close_above_52w);
    ("sma50gt150", PBool sma50_gt_sma150);
    ("sma150gt200", PBool sma150_gt_sma200);
    ("sma200Slope", PBool sma200_slope);
    ("aum", PStr aum_s);
    ("rsi", PInt rsi);
    ("near52wpct", PFloat (py_round near_52w_pct 1));
    ("week52High", PFloat (py_round week52_high 2));
    ("prevClose", PFloat (py_round prev_close 2));
    ("volume", PFloat (py_round (volume / 1e6) 1));
    ("expense", PFloat (py_round (expense_ratio * 100) 2)) ].

(** The body of the [try] of [get_etf_data], after the two requests. *)
Definition build_record (info : QuoteSnapshot) (hist : PriceSeries) (ticker : string)
  : result dict :=
  sma50 <- sma hist 50 ;;
  sma150 <- sma hist 150 ;;
  sma200 <- sma hist 200 ;;
  price <- price_of info hist ;;
  volume <- volume_of info ;;
  week52_high <- week52_high_of info hist price ;;
  aum <- aum_of info ;;
  expense_ratio <- get_expense_ratio info ticker ;;
  let name := name_of info ticker in
  let asset := asset_class name ticker in
  near_52w_pct <- near_52w_pct_of price week52_high ;;
  let close_above_52w := close_above_52w_of price week52_high in
  sma50_gt_sma150 <- sma_gt sma50 sma150 ;;
  sma150_gt_sma200 <- sma_gt sma150 sma200 ;;
  sma200_slope <- sma200_slope_of sma200 price ;;
  rsi <- rsi_of hist ;;
  lwowski <- lwowski_of aum volume ;;
  prev_close <- prev_close_of info price ;;
  aum_s <- aum_text aum ;;
  Ok (convert_to_python_types
        (result_dict ticker name asset lwowski price close_above_52w sma50_gt_sma150
           sma150_gt_sma200 sma200_slope aum_s rsi near_52w_pct week52_high prev_close
           volume expense_ratio)).

(** [get_etf_data(ticker)]: the record, or [None] when anything raised. *)
Definition get_etf_data (yf : Provider) (ticker : string) : result (option dict) :=
  try_except
    (info <- yf_info yf ticker ;;
     hist <- yf_history yf ticker ;;
     r <- build_record info hist ticker ;;
     Ok (Some r))
    (fun _ => Ok None).

(** ** The batch *)

(** [if data:] for what [get_etf_data] returns: [None] and the empty dict are
    false. *)
Definition data_truthy (data : option dict) : bool :=
  match data with
  | Some (_ :: _) => true
  | _ => false
  end.

(** One turn of the loop of [get_etfs], on the lists [results] and [errors]. *)
Definition get_etfs_step (yf : Provider) (st : list dict * list string) (ticker : string)
  : result (list dict * list string) :=
  let '(results, errors) := st in
  try_except
    (data <- get_etf_data yf ticker ;;
     match data with
     | Some d => if data_truthy data then Ok ((results ++ [d])%list, errors)
                 else Ok (results, (errors ++ [ticker])%list)
     | None => Ok (results, (errors ++ [ticker])%list)
     end)
    (fun _ => Ok (results, (errors ++ [ticker])%list)).

Fixpoint get_etfs_loop (yf : Provider) (tickers : list string) (st : list dict * list string)
  : result (list dict * list string) :=
  match tickers with
  | [] => Ok st
  | ticker :: rest =>
      st' <- get_etfs_step yf st ticker ;;
      get_etfs_loop yf rest st'
  end.

(** [get_etfs()] over a universe of tickers. *)
Definition get_etfs_over (yf : Provider) (universe : list string) : result Response :=
  try_except
    (st <- get_etfs_loop yf universe ([], []) ;;
     let '(results, errors) := st in
     Ok {| status := "success";
           count := Some (List.length results);
           message := None;
           data := results;
           http_status := 200 |})
    (fun _ =>
       Ok {| status := "error";
             count := None;
             message := Some "error";   (* [str(e)] *)
             data := [];
             http_status := 500 |}).

Definition get_etfs (yf : Provider) : result Response := get_etfs_over yf ETF_TICKERS.

(* ================================================================== *)
(** * 6. Vocabulary of the statements *)
(* ================================================================== *)

(** [v] is [None], an int or a float: what a numeric key of the quote holds. *)
Definition numeric (v : pyval) : Prop :=
  match v with
  | PNone | PInt _ | PFloat _ => True
  | _ => False
  end.






(** A quote field holds a usable expense ratio: present, not NaN, positive. *)
Definition usable_expense (f : field num) : bool :=
  match f with
  | Val (NInt z) => 0 <? z
  | Val (NFloat x) => negb (is_nan x) && (0 <? x)%float
  | _ => false
  end.

(** The value of [safe_bool(a and b and a > b)]. *)
Definition sma_gt_value (a b : option float) : bool :=
  match a, b with
  | Some x, Some y => float_truthy x && float_truthy y && (y <? x)%float
  | _, _ => false
  end.

Definition sma200_slope_value (sma200 : option float) (price : float) : bool :=
  match sma200 with
  | Some x => float_truthy x && (x <? price)%float
  | None => false
  end.

(** The values that [get_etf_data] derives before it assembles the record. *)
Record Resolved : Type := {
  r_sma50 : option float;
  r_sma150 : option float;
  r_sma200 : option float;
  r_price : float;
  r_volume : float;
  r_week52_high : float;
  r_aum : float;
  r_expense_ratio : float;
  r_near_52w_pct : float;
  r_rsi : Z;
  r_prev_close : float
}.

Definition resolves (info : QuoteSnapshot) (hist : PriceSeries) (ticker : string)
    (r : Resolved) : Prop :=
  sma hist 50 = Ok (r_sma50 r) /\
  sma hist 150 = Ok (r_sma150 r) /\
  sma hist 200 = Ok (r_sma200 r) /\
  price_of info hist = Ok (r_price r) /\
  volume_of info = Ok (r_volume r) /\
  week52_high_of info hist (r_price r) = Ok (r_week52_high r) /\
  aum_of info = Ok (r_aum r) /\
  get_expense_ratio info ticker = Ok (r_expense_ratio r) /\
  near_52w_pct_of (r_price r) (r_week52_high r) = Ok (r_near_52w_pct r) /\
  rsi_of hist = Ok (r_rsi r) /\
  prev_close_of info (r_price r) = Ok (r_prev_close r).

(** No float of the resolved values is a NaN. *)
Definition all_numbers (r : Resolved) : Prop :=
  is_nan (r_price r) = false /\
  is_nan (r_volume r) = false /\
  is_nan (r_week52_high r) = false /\
  is_nan (r_aum r) = false /\
  is_nan (r_expense_ratio r) = false /\
  is_nan (r_near_52w_pct r) = false /\
  is_nan (r_prev_close r) = false.

(** The record assembled from the resolved values, the score and the AUM
    text. *)
Definition record_of (info : QuoteSnapshot) (ticker : string) (r : Resolved)
    (lwowski : Z) (aum_s : string) : dict :=
  let name := name_of info ticker in
  result_dict ticker name (asset_class name ticker) lwowski (r_price r)
    (close_above_52w_of (r_price r) (r_week52_high r))
    (sma_gt_value (r_sma50 r) (r_sma150 r))
    (sma_gt_value (r_sma150 r) (r_sma200 r))
    (sma200_slope_value (r_sma200 r) (r_price r))
    aum_s (r_rsi r) (r_near_52w_pct r) (r_week52_high r) (r_prev_close r)
    (r_volume r) (r_expense_ratio r).

Definition record_keys : list string :=
  [ "ticker"; "name"; "asset"; "lwowski"; "price"; "closeAbove52w"; "sma50gt150";
    "sma150gt200"; "sma200Slope"; "aum"; "rsi"; "near52wpct"; "week52High";
    "prevClose"; "volume"; "expense" ].

(** A record with its sixteen keys, none of them mapped to [None]. *)
Definition complete_record (d : dict) : Prop :=
  dict_keys d = record_keys /\ Forall (fun kv => snd kv <> PNone) d.

(** The record of a ticker whose two requests and whose build succeed. *)
Definition record_for (yf : Provider) (ticker : string) : option dict :=
  match yf_info yf ticker, yf_history yf ticker with
  | Ok info, Ok hist =>
      match build_record info hist ticker with
      | Ok d => Some d
      | Raise _ => None
      end
  | _, _ => None
  end.

Definition succeeds (yf : Provider) (ticker : string) : bool :=
  match record_for yf ticker with
  | Some _ => true
  | None => false
  end.

(** The records of the tickers that succeed, in the order of the universe. *)
Definition successes (yf : Provider) (universe : list string) : list dict :=
  flat_map (fun t => match record_for yf t with Some d => [d] | None => [] end) universe.

Definition failures (yf : Provider) (universe : list string) : list string :=
  filter (fun t => negb (succeeds yf t)) universe.

Definition ticker_of (d : dict) : option pyval := dict_get "ticker" d.

(** [kw] occurs in [s]: [s] is some text, [kw], some text. *)
Definition occurs_in (kw s : string) : Prop :=
  exists pre post, s = pre ++ kw ++ post.


Definition empty_info : QuoteSnapshot :=
  {| regularMarketPrice := Missing; currentPrice := Missing;
     regularMarketVolume := Missing; fiftyTwoWeekHigh := Missing;
     totalAssets := Missing; marketCap := Missing;
     regularMarketPreviousClose := Missing; longName := Missing; shortName := Missing;
     annualReportExpenseRatio := Missing; expenseRatio := Missing;
     annualExpenseRatio := Missing; prospectusNetExpenseRatio := Missing;
     managementExpenseRatio := Missing |}.

(** A day on which every price is [c]. *)
Definition flat_bar (c : float) : PriceBar :=
  {| bar_open := c; bar_high := c; bar_low := c; bar_close := c; bar_volume := 1000 |}.

(** 150 days at 10 with one NaN close 60 days ago: both averages are present,
    the 50-day one is the greater, and the flag is false. *)
Definition gap_history : PriceSeries :=
  (repeat (flat_bar 10) 89 ++ [flat_bar nan] ++ repeat (flat_bar 10) 60)%list.

(** The 14-row means of rises and of falls at the last row. *)
Definition mean_gain (hist : PriceSeries) : float := last (rsi_gain hist) nan.
Definition mean_loss (hist : PriceSeries) : float := last (rsi_loss hist) nan.

(** 20 days, each a point above the day before. *)
Definition rising_history : PriceSeries :=
  map (fun i => flat_bar (float_of_nat (100 + i))) (seq 0 20).

(** The largest integer that is not above a finite float; [None] for an
    infinity or NaN. *)
Definition float_floor (x : float) : option Z :=
  match Prim2SF x with
  | S754_zero _ => Some 0
  | S754_finite s m e =>
      Some match e with
           | Zneg sh => cond_Zopp s (Zpos m) / Zpos (Pos.pow 2 sh)
           | _ => cond_Zopp s (Z.shiftl (Zpos m) e)
           end
  | _ => None
  end.

Definition clamp (lo hi z : Z) : Z := Z.max lo (Z.min hi z).

(** [(aum / 1e6) * (volume / 1e6) / 100] *)
Definition liquidity_product (aum volume : float) : float :=
  (aum / 1e6 * (volume / 1e6) / 100)%float.

(** A quote with a negative price and no 52-week high: the high resolves to
    zero, the record is built, and [closeAbove52w] is false. *)
Definition negative_price_info : QuoteSnapshot :=
  {| regularMarketPrice := Val (NFloat (-1)); currentPrice := Missing;
     regularMarketVolume := Missing; fiftyTwoWeekHigh := Null;
     totalAssets := Missing; marketCap := Missing;
     regularMarketPreviousClose := Missing; longName := Missing; shortName := Missing;
     annualReportExpenseRatio := Missing; expenseRatio := Missing;
     annualExpenseRatio := Missing; prospectusNetExpenseRatio := Missing;
     managementExpenseRatio := Missing |}.

(** A client that has nothing for ["BBB"] and an empty quote and history for
    every other ticker. *)
Definition sample_provider : Provider :=
  {| yf_info := fun t => if String.eqb t "BBB" then Raise ProviderError else Ok empty_info;
     yf_history := fun _ => Ok [] |}.

(* ================================================================== *)
(** * 6 (continued). Nested objects, and more vocabulary *)
(* ================================================================== *)

(** What [safe_float] makes of a number of the quote: the float itself, 0.0
    for a NaN, the nearest double for an int, 0.0 for an int too large for a
    double. *)
Definition num_to_float (n : num) : float :=
  match n with
  | NFloat x => if is_nan x then 0%float else x
  | NInt z =>
      match float_of_int z with
      | Ok y => y
      | Raise _ => 0%float
      end
  end.

(** A quote whose only expense keys are [expenseRatio] and
    [annualExpenseRatio], the first key being [None]. *)
Definition two_ratios_info : QuoteSnapshot :=
  {| regularMarketPrice := Missing; currentPrice := Missing;
     regularMarketVolume := Missing; fiftyTwoWeekHigh := Missing;
     totalAssets := Missing; marketCap := Missing;
     regularMarketPreviousClose := Missing; longName := Missing; shortName := Missing;
     annualReportExpenseRatio := Null; expenseRatio := Val (NFloat 0.0009);
     annualExpenseRatio := Val (NFloat 0.5); prospectusNetExpenseRatio := Missing;
     managementExpenseRatio := Missing |}.

(** Zero, or above zero: what [0 <= x] means for a float. *)
Definition sf_nonneg (x : spec_float) : Prop :=
  match x with
  | S754_zero _ | S754_infinity false | S754_finite false _ _ => True
  | _ => False
  end.

(** The bond test and the commodity test of the classifier, on a name and a
    ticker. *)
Definition bond_match (name ticker : string) : Prop :=
  (exists kw, In kw bond_keywords /\ occurs_in kw (lower name)) \/
  (exists kw, In kw bond_tickers /\ occurs_in kw (lower ticker)).

Definition commodity_match (name ticker : string) : Prop :=
  (exists kw, In kw commodity_keywords /\ occurs_in kw (lower name)) \/
  (exists kw, In kw commodity_tickers /\ occurs_in kw (lower ticker)).

(** A key that holds nothing to convert: [None] or a NaN. *)
Definition blank (f : field num) : Prop :=
  f = Null \/ exists x, f = Val (NFloat x) /\ is_nan x = true.

(** A quote that has [currentPrice] and a [None] under [regularMarketPrice]. *)
Definition null_price_info : QuoteSnapshot :=
  {| regularMarketPrice := Null; currentPrice := Val (NFloat 25);
     regularMarketVolume := Null; fiftyTwoWeekHigh := Null;
     totalAssets := Null; marketCap := Val (NInt 5000000000);
     regularMarketPreviousClose := Null; longName := Null; shortName := Val "Some Fund";
     annualReportExpenseRatio := Missing; expenseRatio := Missing;
     annualExpenseRatio := Missing; prospectusNetExpenseRatio := Missing;
     managementExpenseRatio := Missing |}.

(** 20 days at the same close. *)
Definition flat_history : PriceSeries := repeat (flat_bar 10) 20.

Definition is_inf (x : float) : bool :=
  match Prim2SF x with
  | S754_infinity _ => true
  | _ => false
  end.

(** The two integer conversions of the builder meet an infinity:
    [int(aum/1e6)] of the AUM text, or [int(...)] of the liquidity product
    (both only reached for a non-zero AUM, the second for a non-zero volume
    too). *)
Definition build_overflows (aum volume : float) : bool :=
  float_truthy aum &&
  (is_inf (aum / 1e6) || (float_truthy volume && is_inf (liquidity_product aum volume))).

(** A quote whose AUM is an infinity. *)
Definition infinite_aum_info : QuoteSnapshot :=
  {| regularMarketPrice := Missing; currentPrice := Missing;
     regularMarketVolume := Missing; fiftyTwoWeekHigh := Missing;
     totalAssets := Val (NFloat infinity); marketCap := Missing;
     regularMarketPreviousClose := Missing;
     longName := Missing; shortName := Missing;
     annualReportExpenseRatio := Missing; expenseRatio := Missing;
     annualExpenseRatio := Missing; prospectusNetExpenseRatio := Missing;
     managementExpenseRatio := Missing |}.

(** A provider whose every request is refused. *)
Definition down_provider : Provider :=
  {| yf_info := fun _ => Raise ProviderError;
     yf_history := fun _ => Raise ProviderError |}.

(** The response of a batch: always the one of the [try] branch. *)
Definition success_response (results : list dict) : Response :=
  {| status := "success";
     count := Some (List.length results);
     message := None;
     data := results;
     http_status := 200 |}.

(** [convert_to_python_types] on every object it tells apart: the native
    scalars, the NumPy scalars (with NumPy 1.x, where [np.float_] is
    [np.float64]), one-dimensional arrays of ints, floats or bools, and
    dicts and lists of these, nested at will. *)
Module Numpy.

#[local] Set Warnings "-register-all".

Inductive ndarray : Type :=
  | NdInt (l : list Z)
  | NdFloat (l : list float)
  | NdBool (l : list bool).

Inductive pyobj : Type :=
  | ONone
  | OBool (b : bool)
  | OInt (z : Z)
  | OFloat (f : float)
  | OStr (s : string)
  | ONpInt (z : Z)            (* np.int8 ... np.uint64 *)
  | ONpFloat (f : float)      (* np.float16 ... np.float64 *)
  | ONpBool (b : bool)        (* np.bool_ *)
  | ONdArray (a : ndarray)
  | ODict (items : list (string * pyobj))
  | OList (items : list pyobj).

(** [a.tolist()]: the elements as native scalars. *)
Definition tolist (a : ndarray) : list pyobj :=
  match a with
  | NdInt l => map OInt l
  | NdFloat l => map OFloat l
  | NdBool l => map OBool l
  end.

(** [pd.isna(obj)] where the last test meets it: on a native scalar. *)
Definition isna (obj : pyobj) : bool :=
  match obj with
  | ONone => true
  | OFloat f => is_nan f
  | _ => false
  end.

Fixpoint convert_to_python_types (obj : pyobj) : pyobj :=
  match obj with
  | ONpInt z => OInt z
  | ONpFloat f => OFloat f
  | ONpBool b => OBool b
  | ONdArray a => OList (tolist a)
  | ODict items =>
      ODict (map (fun kv => match kv with
                            | (key, value) => (key, convert_to_python_types value)
                            end) items)
  | OList items => OList (map convert_to_python_types items)
  | _ => if isna obj then ONone else obj
  end.

End Numpy.

(** A native scalar as an object. *)
Definition obj_of_scalar (v : pyval) : Numpy.pyobj :=
  match v with
  | PNone => Numpy.ONone
  | PBool b => Numpy.OBool b
  | PInt z => Numpy.OInt z
  | PFloat f => Numpy.OFloat f
  | PStr s => Numpy.OStr s
  end.

(** A dict of native scalars as an object. *)
Definition obj_of_dict (d : dict) : Numpy.pyobj :=
  Numpy.ODict (map (fun kv => (fst kv, obj_of_scalar (snd kv))) d).

(** Only native values: no NumPy scalar and no array, at any depth. *)
Fixpoint native (obj : Numpy.pyobj) : bool :=
  match obj with
  | Numpy.ONpInt _ | Numpy.ONpFloat _ | Numpy.ONpBool _ | Numpy.ONdArray _ => false
  | Numpy.ODict items => forallb (fun kv => match kv with (_, value) => native value end) items
  | Numpy.OList items => forallb native items
  | _ => true
  end.

(** No native float is a NaN, at any depth. *)
Fixpoint nan_free (obj : Numpy.pyobj) : bool :=
  match obj with
  | Numpy.OFloat f => negb (is_nan f)
  | Numpy.ODict items => forallb (fun kv => match kv with (_, value) => nan_free value end) items
  | Numpy.OList items => forallb nan_free items
  | _ => true
  end.

(** No NumPy float is a NaN, scalar or element of an array, at any depth. *)
Fixpoint numpy_nan_free (obj : Numpy.pyobj) : bool :=
  match obj with
  | Numpy.ONpFloat f => negb (is_nan f)
  | Numpy.ONdArray (Numpy.NdFloat l) => forallb (fun f => negb (is_nan f)) l
  | Numpy.ODict items =>
      forallb (fun kv => match kv with (_, value) => numpy_nan_free value end) items
  | Numpy.OList items => forallb numpy_nan_free items
  | _ => true
  end.

(** The same shape: the same keys in the same order in every dict, the same
    length for every list, an array being a list of its elements. *)
Fixpoint same_shape (a b : Numpy.pyobj) : Prop :=
  match a, b with
  | Numpy.ODict xs, Numpy.ODict ys =>
      (fix go (xs : list (string * Numpy.pyobj)) (ys : list (string * Numpy.pyobj)) : Prop :=
         match xs, ys with
         | [], [] => True
         | (k, x) :: xs', (k', y) :: ys' => k = k' /\ same_shape x y /\ go xs' ys'
         | _, _ => False
         end) xs ys
  | Numpy.OList xs, Numpy.OList ys =>
      (fix go (xs ys : list Numpy.pyobj) : Prop :=
         match xs, ys with
         | [], [] => True
         | x :: xs', y :: ys' => same_shape x y /\ go xs' ys'
         | _, _ => False
         end) xs ys
  | Numpy.ONdArray a, Numpy.OList ys => List.length (Numpy.tolist a) = List.length ys
  | Numpy.ODict _, _ | _, Numpy.ODict _ => False
  | Numpy.OList _, _ | _, Numpy.OList _ => False
  | Numpy.ONdArray _, _ | _, Numpy.ONdArray _ => False
  | _, _ => True
  end.

(** 20 days, each a point below the day before. *)
Definition falling_history : PriceSeries :=
  map (fun i => flat_bar (float_of_nat (200 - i))) (seq 0 20).

(** Three days with the highs 10, NaN and 12. *)
Definition three_highs : PriceSeries :=
  [ {| bar_open := 9; bar_high := 10; bar_low := 9; bar_close := 9; bar_volume := 1000 |};
    {| bar_open := 9; bar_high := nan; bar_low := 9; bar_close := 9; bar_volume := 1000 |};
    {| bar_open := 9; bar_high := 12; bar_low := 9; bar_close := 9; bar_volume := 1000 |} ].

(** No string twice. *)
Fixpoint distinct (l : list string) : bool :=
  match l with
  | [] => true
  | x :: rest => negb (existsb (String.eqb x) rest) && distinct rest
  end.

(* ================================================================== *)
(** * 7. Properties *)
(* ================================================================== *)

(** * Float facts *)

Lemma SFcompare_refl (x : spec_float) :
  SFcompare x x = match x with S754_nan => None | _ => Some Eq end.
Proof.
  destruct x as [s|s| |s m e]; simpl; try reflexivity.
  - destruct s; reflexivity.
  - rewrite Z.compare_refl.
    assert (H : Pos.compare_cont Eq m m = Eq) by apply Pos.compare_refl.
    rewrite H. destruct s; reflexivity.
Qed.

Lemma is_nan_spec (x : float) :
  is_nan x = match Prim2SF x with S754_nan => true | _ => false end.
Proof.
  unfold is_nan. rewrite eqb_spec. unfold SFeqb. rewrite SFcompare_refl.
  destruct (Prim2SF x); reflexivity.
Qed.

Lemma Prim2SF_zero : Prim2SF 0%float = S754_zero false.
Proof. reflexivity. Qed.

Lemma float_truthy_spec (x : float) :
  float_truthy x = match Prim2SF x with S754_zero _ => false | _ => true end.
Proof.
  unfold float_truthy. rewrite eqb_spec, Prim2SF_zero. unfold SFeqb.
  destruct (Prim2SF x) as [s|s| |s m e]; simpl; try reflexivity; destruct s; reflexivity.
Qed.

Lemma ltb_zero_spec (x : float) :
  (0 <? x)%float =
  match Prim2SF x with
  | S754_infinity false | S754_finite false _ _ => true
  | _ => false
  end.
Proof.
  rewrite ltb_spec, Prim2SF_zero. unfold SFltb.
  destruct (Prim2SF x) as [s|s| |s m e]; simpl; try reflexivity; destruct s; reflexivity.
Qed.

Lemma leb_zero_spec (x : float) :
  (0 <=? x)%float =
  match Prim2SF x with
  | S754_zero _ | S754_infinity false | S754_finite false _ _ => true
  | _ => false
  end.
Proof.
  rewrite leb_spec, Prim2SF_zero. unfold SFleb.
  destruct (Prim2SF x) as [s|s| |s m e]; simpl; try reflexivity; destruct s; reflexivity.
Qed.

(** ** Rounding never makes a NaN *)

Lemma shr_1_nonneg (r : shr_record) : 0 <= shr_m r -> 0 <= shr_m (shr_1 r).
Proof.
  destruct r as [m r s]. simpl. intros H.
  destruct m as [|p|p]; simpl; try lia; destruct p; simpl; lia.
Qed.

Lemma iter_pos_shr_1_nonneg (p : positive) (r : shr_record) :
  0 <= shr_m r -> 0 <= shr_m (iter_pos shr_1 p r).
Proof.
  revert r. induction p as [p IH|p IH|]; intros r H; simpl.
  - apply IH, IH, shr_1_nonneg, H.
  - apply IH, IH, H.
  - apply shr_1_nonneg, H.
Qed.

Lemma shr_fexp_nonneg (m e : Z) (l : location) :
  0 <= m -> 0 <= shr_m (fst (shr_fexp prec emax m e l)).
Proof.
  intros H. unfold shr_fexp, shr.
  assert (H0 : 0 <= shr_m (shr_record_of_loc m l)).
  { destruct l as [|[]]; simpl; exact H. }
  destruct (fexp prec emax (Zdigits2 m + e) - e); simpl; auto.
  apply iter_pos_shr_1_nonneg, H0.
Qed.

Lemma round_nearest_even_nonneg (m : Z) (l : location) :
  0 <= m -> 0 <= round_nearest_even m l.
Proof.
  intros H. destruct l as [|[]]; simpl; try lia.
  destruct (Z.even m); lia.
Qed.

Lemma binary_round_aux_not_nan (s : bool) (m e : Z) (l : location) :
  0 <= m -> binary_round_aux prec emax s m e l <> S754_nan.
Proof.
  intros H. unfold binary_round_aux.
  pose proof (shr_fexp_nonneg m e l H) as H1.
  destruct (shr_fexp prec emax m e l) as [mrs' e'] eqn:E1. simpl in H1.
  pose proof (shr_fexp_nonneg _ e' loc_Exact
                (round_nearest_even_nonneg _ (loc_of_shr_record mrs') H1)) as H2.
  destruct (shr_fexp prec emax (round_nearest_even (shr_m mrs') (loc_of_shr_record mrs')) e' loc_Exact)
    as [mrs'' e''] eqn:E2. simpl in H2.
  destruct (shr_m mrs'') as [|p|p]; try discriminate.
  - destruct (e'' <=? emax - prec); discriminate.
  - lia.
Qed.

Lemma binary_round_not_nan (s : bool) (m : positive) (e : Z) :
  binary_round prec emax s m e <> S754_nan.
Proof.
  unfold binary_round.
  destruct (shl_align m e (fexp prec emax (Z.pos (digits2_pos m) + e))) as [mz ez].
  apply binary_round_aux_not_nan. lia.
Qed.

Lemma binary_normalize_not_nan (m e : Z) (sz : bool) :
  binary_normalize prec emax m e sz <> S754_nan.
Proof.
  destruct m; simpl; try discriminate; apply binary_round_not_nan.
Qed.

Lemma SFdiv_finite_not_nan (x : spec_float) (s : bool) (m : positive) (e : Z) :
  x <> S754_nan -> SF64div x (S754_finite s m e) <> S754_nan.
Proof.
  intros H. destruct x as [sx|sx| |sx mx ex]; simpl; try discriminate; try congruence.
  unfold SF64div, SFdiv.
  destruct (SFdiv_core_binary prec emax (Z.pos mx) ex (Z.pos m) e) as [[mz ez] lz] eqn:E.
  apply binary_round_aux_not_nan.
  unfold SFdiv_core_binary in E.
  set (m' := match _ with Z.pos _ => _ | _ => _ end) in E.
  assert (Hm' : 0 <= m').
  { subst m'. destruct (_ - _ - _); try lia. rewrite Z.shiftl_mul_pow2 by lia.
    apply Z.mul_nonneg_nonneg; [lia|]. apply Z.pow_nonneg. lia. }
  destruct (Z.div_eucl m' (Z.pos m)) as [q r] eqn:Ed.
  inversion E; subst.
  pose proof (Z_div_mod m' (Z.pos m) ltac:(lia)) as Hd. rewrite Ed in Hd.
  destruct Hd as [Heq Hr]. nia.
Qed.

Lemma SFmul_finite_not_nan (x : spec_float) (s : bool) (m : positive) (e : Z) :
  x <> S754_nan -> SF64mul x (S754_finite s m e) <> S754_nan.
Proof.
  intros H. destruct x as [sx|sx| |sx mx ex]; simpl; try discriminate; try congruence.
  apply binary_round_aux_not_nan. lia.
Qed.

Lemma SFldexp_not_nan (x : spec_float) (e : Z) :
  x <> S754_nan -> SFldexp prec emax x e <> S754_nan.
Proof.
  intros H. destruct x; simpl; try discriminate; try congruence.
  apply binary_round_not_nan.
Qed.

Lemma SFopp_not_nan (x : spec_float) : x <> S754_nan -> SFopp x <> S754_nan.
Proof. destruct x; simpl; congruence. Qed.

Lemma SF2Prim_not_nan (x : spec_float) :
  x <> S754_nan -> Prim2SF (SF2Prim x) <> S754_nan.
Proof.
  intros H. destruct x as [s|s| |s m e]; try congruence.
  - destruct s; vm_compute; discriminate.
  - destruct s; vm_compute; discriminate.
  - unfold SF2Prim.
    assert (Hl : Prim2SF (Z.ldexp (of_uint63 (Uint63.of_Z (Z.pos m))) e) <> S754_nan).
    { rewrite Z_ldexp_spec. apply SFldexp_not_nan.
      rewrite of_uint63_spec. apply binary_normalize_not_nan. }
    destruct s; [rewrite opp_spec; apply SFopp_not_nan|]; exact Hl.
Qed.

Lemma is_nan_false_iff (x : float) : is_nan x = false <-> Prim2SF x <> S754_nan.
Proof.
  rewrite is_nan_spec. destruct (Prim2SF x); split; congruence.
Qed.

Lemma float_of_int_not_nan (z : Z) (f : float) :
  float_of_int z = Ok f -> is_nan f = false.
Proof.
  unfold float_of_int. intros H.
  pose proof (binary_normalize_not_nan z 0 false) as Hn.
  assert (Hf : f = SF2Prim (binary_normalize prec emax z 0 false)).
  { destruct (binary_normalize prec emax z 0 false); congruence. }
  subst f. apply is_nan_false_iff, SF2Prim_not_nan, Hn.
Qed.

Lemma nearest_double_not_nan (s : bool) (num den : positive) :
  is_nan (nearest_double s num den) = false.
Proof.
  apply is_nan_false_iff, SF2Prim_not_nan, SFdiv_finite_not_nan. discriminate.
Qed.

Lemma py_round_not_nan (x : float) (nd : N) :
  is_nan x = false -> is_nan (py_round x nd) = false.
Proof.
  intros H. unfold py_round.
  destruct (Prim2SF x) as [s|s| |s m e] eqn:E; try exact H.
  cbv zeta.
  match goal with |- context [match ?k with Z.pos kp => _ | _ => _ end] => destruct k end;
    try apply nearest_double_not_nan; destruct s; reflexivity.
Qed.

Lemma div_const_not_nan (x c : float) (s : bool) (m : positive) (e : Z) :
  Prim2SF c = S754_finite s m e -> is_nan x = false -> is_nan (x / c) = false.
Proof.
  intros Hc H. apply is_nan_false_iff. rewrite div_spec, Hc.
  apply SFdiv_finite_not_nan, is_nan_false_iff, H.
Qed.

Lemma mul_const_not_nan (x c : float) (s : bool) (m : positive) (e : Z) :
  Prim2SF c = S754_finite s m e -> is_nan x = false -> is_nan (x * c) = false.
Proof.
  intros Hc H. apply is_nan_false_iff. rewrite mul_spec, Hc.
  apply SFmul_finite_not_nan, is_nan_false_iff, H.
Qed.

Create HintDb numbers.

#[export] Hint Resolve py_round_not_nan nearest_double_not_nan : numbers.

(** ** [safe_float] *)

Lemma safe_float_float (f d : float) :
  safe_float (PFloat f) d = Ok (if is_nan f then d else f).
Proof.
  unfold safe_float. simpl. destruct (is_nan f); reflexivity.
Qed.

Lemma safe_float_None (d : float) : safe_float PNone d = Ok d.
Proof. reflexivity. Qed.

(** On a scalar the test is a bool. *)
Lemma safe_float_scalar (v : pyval) (d : float) :
  safe_float v d =
  if is_None v || pd_isna_scalar v then Ok d
  else try_except (py_float v) (fun _ => Ok d).
Proof. destruct v; reflexivity. Qed.

Lemma safe_float_total (v : pyval) (d : float) : exists x, safe_float v d = Ok x.
Proof.
  rewrite safe_float_scalar. destruct (is_None v || pd_isna_scalar v); [eauto|].
  destruct (py_float v); simpl; eauto.
Qed.

Lemma safe_float_numeric (v : pyval) (d : float) :
  numeric v -> is_nan d = false ->
  exists x, safe_float v d = Ok x /\ is_nan x = false.
Proof.
  intros Hv Hd. destruct v as [| b | z | f | s]; simpl in Hv; try contradiction.
  - exists d. split; [reflexivity|exact Hd].
  - unfold safe_float. simpl. destruct (float_of_int z) as [f|e] eqn:E; simpl.
    + exists f. split; [reflexivity|]. eapply float_of_int_not_nan, E.
    + exists d. split; [reflexivity|exact Hd].
  - rewrite safe_float_float. destruct (is_nan f) eqn:E; eauto.
Qed.

Lemma info_get_numeric (f : field num) (default : pyval) :
  numeric default -> numeric (info_get f default).
Proof.
  intros H. destruct f as [| | [z|x]]; simpl; auto.
Qed.

Lemma is_nan_0 : is_nan 0%float = false.
Proof. reflexivity. Qed.

(** ** Series *)

Lemma roll_mean_rows_length (window : nat) (entering : Series) :
  forall wait leaving st,
    List.length (roll_mean_rows window wait leaving entering st) = List.length entering.
Proof.
  induction entering as [|val entering IH]; intros wait leaving st; [reflexivity|].
  cbn [roll_mean_rows]. destruct wait as [|w]; [destruct leaving as [|old rest]|];
    cbn [List.length]; rewrite IH; reflexivity.
Qed.

Lemma rolling_mean_length (n : nat) (s : Series) :
  List.length (rolling_mean n s) = List.length s.
Proof.
  unfold rolling_mean, roll_mean, prep_values.
  rewrite roll_mean_rows_length, length_map. reflexivity.
Qed.

Lemma iloc_last_nonempty (s : Series) :
  s <> [] -> iloc_last s = Ok (last s nan).
Proof. destruct s; [congruence|reflexivity]. Qed.






























Lemma hist_empty_false (hist : PriceSeries) (n : nat) :
  (1 <= n <= List.length hist)%nat -> hist_empty hist = false.
Proof. destruct hist; simpl; [lia|reflexivity]. Qed.

(** ** [sma] *)

Lemma sma_short (hist : PriceSeries) (n : nat) :
  (List.length hist < n)%nat -> sma hist n = Ok None.
Proof.
  intros H. unfold sma.
  destruct (n <=? List.length hist)%nat eqn:C; [apply Nat.leb_le in C; lia|].
  rewrite andb_false_r. reflexivity.
Qed.

Lemma sma_long (hist : PriceSeries) (n : nat) :
  (1 <= n <= List.length hist)%nat ->
  sma hist n =
  Ok (Some (let m := last (rolling_mean n (hist_close hist)) nan in
            if is_nan m then 0%float else m)).
Proof.
  intros H. unfold sma.
  rewrite (hist_empty_false hist n H).
  destruct (n <=? List.length hist)%nat eqn:C; [|apply Nat.leb_gt in C; lia].
  simpl andb. cbv iota.
  rewrite iloc_last_nonempty.
  2:{ intros E. apply (f_equal (@List.length _)) in E.
      rewrite rolling_mean_length in E. unfold hist_close in E.
      rewrite length_map in E. simpl in E. lia. }
  cbn [bind]. rewrite safe_float_float. reflexivity.
Qed.

Lemma sma_total (hist : PriceSeries) (n : nat) :
  (1 <= n)%nat ->
  exists o, sma hist n = Ok o /\
            match o with Some x => is_nan x = false | None => True end.
Proof.
  intros Hn. destruct (Nat.lt_ge_cases (List.length hist) n) as [H|H].
  - exists None. split; [apply sma_short, H|exact I].
  - rewrite sma_long by lia. eexists. split; [reflexivity|]. cbv zeta.
    destruct (is_nan (last _ nan)) eqn:E; [reflexivity|exact E].
Qed.

Lemma shiftl_pos (m : positive) (e : Z) : 0 <= e -> 0 < Z.shiftl (Z.pos m) e.
Proof.
  intros H. rewrite Z.shiftl_mul_pow2 by exact H.
  apply Z.mul_pos_pos; [lia|]. apply Z.pow_pos_nonneg; lia.
Qed.

Lemma float_gt_int_zero (x : float) :
  match float_cmp_int x 0 with Some Gt => true | _ => false end = (0 <? x)%float.
Proof.
  rewrite ltb_zero_spec. unfold float_cmp_int.
  destruct (Prim2SF x) as [s|s| |s m e]; try reflexivity.
  - destruct s; reflexivity.
  - assert (H : forall e', 0 <= e' ->
        match cond_Zopp s (Z.shiftl (Z.pos m) e') ?= 0 with Gt => true | _ => false end
        = if s then false else true).
    { intros e' He. pose proof (shiftl_pos m e' He) as P.
      destruct s; simpl cond_Zopp.
      - destruct (Z.compare_spec (- Z.shiftl (Z.pos m) e') 0); try reflexivity; lia.
      - destruct (Z.compare_spec (Z.shiftl (Z.pos m) e') 0); try reflexivity; lia. }
    destruct e as [|p|p].
    + rewrite (H 0) by lia. destruct s; reflexivity.
    + rewrite (H (Z.pos p)) by lia. destruct s; reflexivity.
    + destruct s; reflexivity.
Qed.

Lemma gt_zero_truthy (x : float) : (0 <? x)%float = true -> float_truthy x = true.
Proof.
  rewrite ltb_zero_spec, float_truthy_spec.
  destruct (Prim2SF x) as [s|s| |s m e]; try discriminate; reflexivity.
Qed.

Lemma py_gt_float_zero (x : float) :
  py_gt (PFloat x) (PInt 0) = Ok (PBool (0 <? x)%float).
Proof. unfold py_gt. simpl. rewrite float_gt_int_zero. reflexivity. Qed.

Lemma py_gt_floats (x y : float) :
  py_gt (PFloat x) (PFloat y) = Ok (PBool (y <? x)%float).
Proof. reflexivity. Qed.

Lemma expense_usable_field (f : field num) :
  expense_usable (info_get f PNone) = Ok (usable_expense f).
Proof.
  destruct f as [| |[z|x]]; try reflexivity.
  - unfold expense_usable, py_and. simpl.
    destruct (z =? 0) eqn:E; simpl.
    + apply Z.eqb_eq in E. subst. reflexivity.
    + reflexivity.
  - unfold expense_usable, py_and. cbn [info_get num_val py_bool pd_isna_scalar usable_expense].
    rewrite py_gt_float_zero.
    destruct (float_truthy x) eqn:T; cbn [bind negb py_bool].
    + destruct (is_nan x); simpl; reflexivity.
    + rewrite T. cbn [bind py_bool]. rewrite T.
      destruct (0 <? x)%float eqn:G.
      * rewrite (gt_zero_truthy x G) in T. discriminate.
      * rewrite andb_false_r. reflexivity.
Qed.

(** The scan returns the first usable field, converted by [safe_float]. *)
Lemma scan_expense_none (fs : list (field num)) :
  forallb (fun f => negb (usable_expense f)) fs = true ->
  scan_expense (map (fun f => info_get f PNone) fs) = Ok None.
Proof.
  induction fs as [|f fs IH]; simpl; [reflexivity|].
  intros H. apply andb_true_iff in H. destruct H as [Hf Hfs].
  rewrite expense_usable_field. simpl.
  apply negb_true_iff in Hf. rewrite Hf. apply IH, Hfs.
Qed.

Lemma scan_expense_total (fs : list (field num)) :
  exists o, scan_expense (map (fun f => info_get f PNone) fs) = Ok o /\
            match o with Some x => is_nan x = false | None => True end.
Proof.
  induction fs as [|f fs IH]; simpl.
  - exists None. split; [reflexivity|exact I].
  - rewrite expense_usable_field. simpl.
    destruct (usable_expense f).
    + destruct (safe_float_numeric (info_get f PNone) 0%float) as [x [Hx Hn]];
        [apply info_get_numeric; exact I|reflexivity|].
      rewrite Hx. simpl. exists (Some x). split; [reflexivity|exact Hn].
    + exact IH.
Qed.

Lemma known_expenses_not_nan :
  forallb (fun kv => negb (is_nan (snd kv))) known_expenses = true.
Proof. vm_compute. reflexivity. Qed.

Lemma expense_lookup_not_nan (ticker : string) (table : list (string * float)) (x : float) :
  forallb (fun kv => negb (is_nan (snd kv))) table = true ->
  expense_lookup ticker table = Some x -> is_nan x = false.
Proof.
  induction table as [|[k v] t IH]; simpl; [discriminate|].
  intros H. apply andb_true_iff in H. destruct H as [Hv Ht].
  destruct (String.eqb ticker k).
  - intros [= <-]. apply negb_true_iff, Hv.
  - apply IH, Ht.
Qed.

Arguments expense_lookup : simpl never.

Lemma get_expense_ratio_total (info : QuoteSnapshot) (ticker : string) :
  exists x, get_expense_ratio info ticker = Ok x /\ is_nan x = false.
Proof.
  unfold get_expense_ratio.
  destruct (scan_expense_total (expense_fields info)) as [o [Ho Hn]].
  rewrite Ho. cbn [bind]. destruct o as [x|].
  - exists x. split; [reflexivity|exact Hn].
  - eexists. split; [reflexivity|].
    destruct (expense_lookup ticker known_expenses) as [x|] eqn:E; [|reflexivity].
    eapply expense_lookup_not_nan; [apply known_expenses_not_nan|exact E].
Qed.

(** With no usable field the table decides, and 0.30 when the ticker is not
    in it. *)
Lemma get_expense_ratio_fallback (info : QuoteSnapshot) (ticker : string) :
  forallb (fun f => negb (usable_expense f)) (expense_fields info) = true ->
  get_expense_ratio info ticker =
  Ok match expense_lookup ticker known_expenses with
     | Some x => x
     | None => 0.30%float
     end.
Proof.
  intros H. unfold get_expense_ratio. rewrite (scan_expense_none _ H). reflexivity.
Qed.

(** ** The resolved values are there and are numbers *)

Lemma price_of_total (info : QuoteSnapshot) (hist : PriceSeries) :
  exists p, price_of info hist = Ok p /\ is_nan p = false.
Proof.
  unfold price_of.
  assert (H : exists v, (if negb (hist_empty hist)
                         then c <- iloc_last (hist_close hist);; Ok (PFloat c)
                         else Ok (PInt 0)) = Ok v /\ numeric v).
  { destruct hist as [|b hist]; simpl negb; cbv iota.
    - exists (PInt 0). split; [reflexivity|exact I].
    - rewrite iloc_last_nonempty by discriminate. simpl.
      eexists. split; [reflexivity|exact I]. }
  destruct H as [v [Hv Nv]]. rewrite Hv. simpl.
  apply safe_float_numeric; [|reflexivity].
  apply info_get_numeric, info_get_numeric, Nv.
Qed.

Lemma volume_of_total (info : QuoteSnapshot) :
  exists v, volume_of info = Ok v /\ is_nan v = false.
Proof.
  apply safe_float_numeric; [apply info_get_numeric; exact I|reflexivity].
Qed.

Lemma week52_high_of_total (info : QuoteSnapshot) (hist : PriceSeries) (price : float) :
  exists w, week52_high_of info hist price = Ok w /\ is_nan w = false.
Proof.
  apply safe_float_numeric; [apply info_get_numeric|reflexivity].
  destruct (negb (hist_empty hist)); exact I.
Qed.

Lemma aum_of_total (info : QuoteSnapshot) :
  exists a, aum_of info = Ok a /\ is_nan a = false.
Proof.
  apply safe_float_numeric; [apply info_get_numeric, info_get_numeric; exact I|reflexivity].
Qed.

Lemma prev_close_of_total (info : QuoteSnapshot) (price : float) :
  exists c, prev_close_of info price = Ok c /\ is_nan c = false.
Proof.
  apply safe_float_numeric; [apply info_get_numeric; exact I|reflexivity].
Qed.

Lemma near_52w_pct_of_total (price w : float) :
  exists n, near_52w_pct_of price w = Ok n /\ is_nan n = false.
Proof.
  unfold near_52w_pct_of, py_and. rewrite py_gt_float_zero.
  destruct (py_bool (PFloat w)); cbn [bind];
    (apply safe_float_numeric; [|reflexivity]);
    match goal with |- numeric (if ?c then _ else _) => destruct c end; exact I.
Qed.

(** ** The flags *)

Lemma sma_gt_spec (a b : option float) :
  sma_gt a b =
  Ok match a, b with
     | Some x, Some y => float_truthy x && float_truthy y && (y <? x)%float
     | _, _ => false
     end.
Proof.
  unfold sma_gt, py_and, safe_bool.
  destruct a as [x|], b as [y|]; simpl; try reflexivity.
  - destruct (float_truthy x) eqn:Tx; simpl.
    + destruct (float_truthy y) eqn:Ty; simpl; [reflexivity|].
      rewrite ?Ty. simpl. rewrite ?Ty. reflexivity.
    + rewrite ?Tx. simpl. rewrite ?Tx. reflexivity.
  - destruct (float_truthy x) eqn:Tx; simpl; [reflexivity|].
    rewrite ?Tx. simpl. rewrite ?Tx. reflexivity.
Qed.

Lemma sma200_slope_of_spec (o : option float) (price : float) :
  sma200_slope_of o price =
  Ok match o with
     | Some x => float_truthy x && (x <? price)%float
     | None => false
     end.
Proof.
  unfold sma200_slope_of, py_and, safe_bool.
  destruct o as [x|]; simpl; [|reflexivity].
  destruct (float_truthy x) eqn:Tx; simpl; [reflexivity|].
  rewrite ?Tx. reflexivity.
Qed.

Lemma rsi_of_total (hist : PriceSeries) : exists r, rsi_of hist = Ok r.
Proof.
  unfold rsi_of.
  destruct (negb (hist_empty hist) && (14 <=? List.length hist)%nat); [|eauto].
  unfold try_except.
  match goal with |- exists r, match ?b with Ok _ => _ | Raise _ => _ end = _ => destruct b end;
    eauto.
Qed.

Lemma convert_scalar_float (x : float) :
  is_nan x = false -> convert_scalar (PFloat x) = PFloat x.
Proof. intros H. unfold convert_scalar. simpl. rewrite H. reflexivity. Qed.

Lemma Prim2SF_1e6 : Prim2SF 1e6 = S754_finite false 8589934592000000 (-33).
Proof. reflexivity. Qed.

Lemma Prim2SF_100 : Prim2SF 100 = S754_finite false 7036874417766400 (-46).
Proof. reflexivity. Qed.

(** [convert_to_python_types] leaves a record of numbers as it is. *)
Lemma convert_record_of (info : QuoteSnapshot) (ticker : string) (r : Resolved)
    (l : Z) (s : string) :
  all_numbers r ->
  convert_to_python_types (record_of info ticker r l s) = record_of info ticker r l s.
Proof.
  intros (Hp & Hv & Hw & Ha & He & Hn & Hc).
  unfold record_of, result_dict, convert_to_python_types. cbn [map fst snd].
  assert (He' : is_nan (r_expense_ratio r * 100) = false)
    by (eapply mul_const_not_nan; [apply Prim2SF_100|exact He]).
  assert (Hv' : is_nan (r_volume r / 1e6) = false)
    by (eapply div_const_not_nan; [apply Prim2SF_1e6|exact Hv]).
  rewrite !convert_scalar_float by auto with numbers.
  reflexivity.
Qed.

Lemma record_of_complete (info : QuoteSnapshot) (ticker : string) (r : Resolved)
    (l : Z) (s : string) :
  complete_record (record_of info ticker r l s).
Proof.
  split; [reflexivity|].
  unfold record_of, result_dict. repeat constructor; discriminate.
Qed.

(** Everything but the two conversions to int is always there: the record
    builder is these two steps followed by the assembly. *)
Lemma build_record_eq (info : QuoteSnapshot) (hist : PriceSeries) (ticker : string) :
  exists r,
    resolves info hist ticker r /\ all_numbers r /\
    build_record info hist ticker =
    (lwowski <- lwowski_of (r_aum r) (r_volume r) ;;
     aum_s <- aum_text (r_aum r) ;;
     Ok (record_of info ticker r lwowski aum_s)).
Proof.
  destruct (sma_total hist 50 ltac:(lia)) as (s50 & H50 & _).
  destruct (sma_total hist 150 ltac:(lia)) as (s150 & H150 & _).
  destruct (sma_total hist 200 ltac:(lia)) as (s200 & H200 & _).
  destruct (price_of_total info hist) as (p & Hp & Np).
  destruct (volume_of_total info) as (v & Hv & Nv).
  destruct (week52_high_of_total info hist p) as (w & Hw & Nw).
  destruct (aum_of_total info) as (a & Ha & Na).
  destruct (get_expense_ratio_total info ticker) as (er & He & Ne).
  destruct (near_52w_pct_of_total p w) as (n & Hn & Nn).
  destruct (rsi_of_total hist) as (rsi & Hr).
  destruct (prev_close_of_total info p) as (pc & Hc & Nc).
  exists {| r_sma50 := s50; r_sma150 := s150; r_sma200 := s200; r_price := p;
            r_volume := v; r_week52_high := w; r_aum := a; r_expense_ratio := er;
            r_near_52w_pct := n; r_rsi := rsi; r_prev_close := pc |}.
  split; [repeat split; assumption|].
  split; [repeat split; assumption|].
  unfold build_record.
  rewrite H50, H150, H200, Hp. cbn [bind].
  rewrite Hv, Hw. cbn [bind]. rewrite Ha, He. cbn [bind]. rewrite Hn. cbn [bind].
  rewrite !sma_gt_spec, sma200_slope_of_spec, Hr. cbn [bind].
  cbn [r_aum r_volume].
  destruct (lwowski_of a v) as [l|e]; cbn [bind]; [|reflexivity].
  rewrite Hc. cbn [bind].
  destruct (aum_text a) as [s|e]; cbn [bind]; [|reflexivity].
  f_equal.
  apply (convert_record_of info ticker
           {| r_sma50 := s50; r_sma150 := s150; r_sma200 := s200; r_price := p;
              r_volume := v; r_week52_high := w; r_aum := a; r_expense_ratio := er;
              r_near_52w_pct := n; r_rsi := rsi; r_prev_close := pc |} l s).
  repeat split; assumption.
Qed.

Lemma resolves_unique (info : QuoteSnapshot) (hist : PriceSeries) (ticker : string)
    (r r' : Resolved) :
  resolves info hist ticker r -> resolves info hist ticker r' -> r = r'.
Proof.
  intros (A1 & A2 & A3 & A4 & A5 & A6 & A7 & A8 & A9 & A10 & A11)
         (B1 & B2 & B3 & B4 & B5 & B6 & B7 & B8 & B9 & B10 & B11).
  destruct r, r'. simpl in *.
  assert (r_price0 = r_price1) by congruence. subst.
  assert (r_week52_high0 = r_week52_high1) by congruence. subst.
  f_equal; congruence.
Qed.

(** A record that was built is [record_of] the resolved values. *)
Lemma build_record_ok (info : QuoteSnapshot) (hist : PriceSeries) (ticker : string)
    (d : dict) :
  build_record info hist ticker = Ok d ->
  exists r l s,
    resolves info hist ticker r /\ all_numbers r /\
    lwowski_of (r_aum r) (r_volume r) = Ok l /\
    aum_text (r_aum r) = Ok s /\
    d = record_of info ticker r l s.
Proof.
  intros H. destruct (build_record_eq info hist ticker) as (r & Hr & Hn & E).
  rewrite E in H.
  destruct (lwowski_of (r_aum r) (r_volume r)) as [l|e] eqn:El; [|discriminate].
  cbn [bind] in H.
  destruct (aum_text (r_aum r)) as [s|e] eqn:Es; [|discriminate].
  cbn [bind] in H. inversion H; subst.
  exists r, l, s. auto.
Qed.

Lemma build_record_complete (info : QuoteSnapshot) (hist : PriceSeries) (ticker : string)
    (d : dict) :
  build_record info hist ticker = Ok d ->
  complete_record d /\ dict_get "ticker" d = Some (PStr ticker).
Proof.
  intros H. apply build_record_ok in H. destruct H as (r & l & s & _ & _ & _ & _ & ->).
  split; [apply record_of_complete|reflexivity].
Qed.

(** ** The batch *)

Section Batch.

Variable yf : Provider.

Lemma get_etf_data_eq (ticker : string) :
  get_etf_data yf ticker = Ok (record_for yf ticker).
Proof.
  unfold get_etf_data, record_for, try_except.
  destruct (yf_info yf ticker) as [info|e]; [|reflexivity]. cbn [bind].
  destruct (yf_history yf ticker) as [hist|e]; [|reflexivity]. cbn [bind].
  destruct (build_record info hist ticker); reflexivity.
Qed.

Lemma record_for_complete (ticker : string) (d : dict) :
  record_for yf ticker = Some d ->
  complete_record d /\ ticker_of d = Some (PStr ticker).
Proof.
  unfold record_for.
  destruct (yf_info yf ticker) as [info|e]; [|discriminate].
  destruct (yf_history yf ticker) as [hist|e]; [|discriminate].
  destruct (build_record info hist ticker) as [d'|e] eqn:E; [|discriminate].
  intros [= <-]. apply (build_record_complete info hist ticker d' E).
Qed.

Lemma record_for_truthy (ticker : string) (d : dict) :
  record_for yf ticker = Some d -> data_truthy (Some d) = true.
Proof.
  intros H. apply record_for_complete in H. destruct H as [[K _] _].
  destruct d; [discriminate|reflexivity].
Qed.

Lemma get_etfs_step_eq (results : list dict) (errors : list string)
    (ticker : string) :
  get_etfs_step yf (results, errors) ticker =
  Ok match record_for yf ticker with
     | Some d => (results ++ [d], errors)%list
     | None => (results, errors ++ [ticker])%list
     end.
Proof.
  unfold get_etfs_step. rewrite get_etf_data_eq. cbn [bind].
  destruct (record_for yf ticker) as [d|] eqn:E; [|reflexivity].
  rewrite (record_for_truthy ticker d E). reflexivity.
Qed.

Lemma get_etfs_loop_eq (universe : list string)
    (results : list dict) (errors : list string) :
  get_etfs_loop yf universe (results, errors) =
  Ok ((results ++ successes yf universe)%list, (errors ++ failures yf universe)%list).
Proof.
  revert results errors.
  induction universe as [|t u IH]; intros results errors; cbn [get_etfs_loop].
  - simpl. rewrite !app_nil_r. reflexivity.
  - rewrite get_etfs_step_eq. cbn [bind].
    unfold successes, failures, succeeds. cbn [flat_map filter].
    destruct (record_for yf t) as [d|]; rewrite IH; cbn [negb app];
      rewrite <- app_assoc; reflexivity.
Qed.

Lemma successes_tickers (universe : list string) :
  map ticker_of (successes yf universe) =
  map (fun t => Some (PStr t)) (filter (succeeds yf) universe).
Proof.
  induction universe as [|t u IH]; simpl; [reflexivity|].
  unfold succeeds at 1.
  destruct (record_for yf t) as [d|] eqn:E; simpl; [|exact IH].
  rewrite IH. f_equal. apply (record_for_complete t d E).
Qed.

Lemma successes_complete (universe : list string) :
  Forall complete_record (successes yf universe).
Proof.
  induction universe as [|t u IH]; simpl; [constructor|].
  destruct (record_for yf t) as [d|] eqn:E; simpl; [|exact IH].
  constructor; [apply (record_for_complete t d E)|exact IH].
Qed.

Lemma successes_failures_length (universe : list string) :
  (List.length (successes yf universe) + List.length (failures yf universe)
   = List.length universe)%nat.
Proof.
  induction universe as [|t u IH]; simpl; [reflexivity|].
  unfold succeeds at 1.
  destruct (record_for yf t); simpl; lia.
Qed.

(** C4: whatever fails for whichever tickers, the batch answers "success"
    with the records of the tickers that did not fail, one each and in the
    order of the universe, and [count] is their number. *)
Theorem batch_isolation (universe : list string) :
  exists resp,
    get_etfs_over yf universe = Ok resp /\
    status resp = "success" /\
    data resp = successes yf universe /\
    map ticker_of (data resp) = map (fun t => Some (PStr t)) (filter (succeeds yf) universe) /\
    count resp = Some (List.length (data resp)).
Proof.
  unfold get_etfs_over. rewrite get_etfs_loop_eq. simpl.
  eexists. split; [reflexivity|]. simpl.
  repeat split. apply successes_tickers.
Qed.

(** The three-ticker instance: the middle one fails. *)
Lemma batch_isolation_three (t1 t2 t3 : string) (d1 d3 : dict) :
  record_for yf t1 = Some d1 ->
  record_for yf t2 = None ->
  record_for yf t3 = Some d3 ->
  get_etfs_over yf [t1; t2; t3] =
  Ok {| status := "success"; count := Some 2%nat; message := None;
        data := [d1; d3]; http_status := 200 |}.
Proof.
  intros H1 H2 H3. unfold get_etfs_over. rewrite get_etfs_loop_eq.
  unfold successes. simpl. rewrite H1, H2, H3. reflexivity.
Qed.

(** C5: the loop ends with every ticker on exactly one of the two lists, and
    every entry of the success list is a complete record. *)
Theorem batch_partition (universe : list string) :
  exists results errors,
    get_etfs_loop yf universe ([], []) = Ok (results, errors) /\
    map ticker_of results = map (fun t => Some (PStr t)) (filter (succeeds yf) universe) /\
    errors = filter (fun t => negb (succeeds yf t)) universe /\
    (List.length results + List.length errors = List.length universe)%nat /\
    Forall complete_record results.
Proof.
  exists (successes yf universe), (failures yf universe).
  split; [apply get_etfs_loop_eq|].
  split; [apply successes_tickers|].
  split; [reflexivity|].
  split; [apply successes_failures_length|apply successes_complete].
Qed.

End Batch.

(** ** C6 *)

Lemma safe_float_list (items : list pyval) (d : float) :
  safe_float (PList items) d =
  if (2 <=? List.length items)%nat then Raise ValueError else Ok d.
Proof.
  destruct items as [|a [|b items]]; try reflexivity.
  unfold safe_float. cbn [pd_isna map isna_truth bind].
  destruct (pd_isna_scalar a); reflexivity.
Qed.

(** C6: [safe_float] is not safe on a list.  The test [pd.isna(value)]
    stands before the [try], and what it returns for a list of two values
    or more has no truth value: [safe_float([1.0, 2.0], 0.0)] raises
    [ValueError] where the claim has it return the default.  The lists of
    two values or more are the only values on which it raises. *)
Theorem safe_float_raises_on_list :
  safe_float (PList [PFloat 1; PFloat 2]) 0 = Raise ValueError /\
  forall (value : pyarg) (d : float) (e : exn),
    safe_float value d = Raise e <->
    e = ValueError /\
    exists items, value = PList items /\ (2 <= List.length items)%nat.
Proof.
  split; [reflexivity|].
  intros [v|items] d e.
  - destruct (safe_float_total v d) as [x E]. rewrite E. split; [discriminate|].
    intros (_ & items & H & _). discriminate.
  - rewrite safe_float_list.
    destruct (2 <=? List.length items)%nat eqn:C.
    + apply Nat.leb_le in C. split.
      * intros [= <-]. split; [reflexivity|]. exists items. auto.
      * intros [-> _]. reflexivity.
    + apply Nat.leb_gt in C. split; [discriminate|].
      intros (_ & items' & [= <-] & H). lia.
Qed.

(** ** C3 *)

Lemma prefix_spec (kw s : string) :
  String.prefix kw s = true <-> exists post, s = kw ++ post.
Proof.
  revert s. induction kw as [|c kw IH]; intros s.
  - split; [intros _; exists s; reflexivity|]. intros _. destruct s; reflexivity.
  - destruct s as [|c' s]; simpl.
    + split; [discriminate|intros [post H]; discriminate].
    + destruct (Ascii.ascii_dec c c') as [->|N].
      * rewrite IH. split; intros [post H]; exists post; congruence.
      * split; [discriminate|]. intros [post H]. congruence.
Qed.

Lemma contains_spec (kw s : string) : contains kw s = true <-> occurs_in kw s.
Proof.
  induction s as [|c s IH]; cbn [contains].
  - rewrite orb_false_r, prefix_spec. split.
    + intros [post H]. exists "", post. exact H.
    + intros [pre [post H]]. destruct pre; [exists post; exact H|discriminate].
  - rewrite orb_true_iff, prefix_spec, IH. split.
    + intros [[post H] | [pre [post H]]].
      * exists "", post. exact H.
      * exists (String c pre), post. simpl. rewrite H. reflexivity.
    + intros [pre [post H]]. destruct pre as [|c' pre]; simpl in H.
      * left. exists post. exact H.
      * right. exists pre, post. congruence.
Qed.

Lemma any_in_spec (kws : list string) (s : string) :
  any_in kws s = true <-> exists kw, In kw kws /\ occurs_in kw s.
Proof.
  unfold any_in. rewrite existsb_exists.
  split; intros [kw [H1 H2]]; exists kw; split; auto; apply contains_spec; exact H2.
Qed.

(** C3 (as the code has it): the class is FixedIncome exactly when a bond
    keyword occurs in the lower-cased name or one of the seven bond symbols
    occurs in the lower-cased ticker; the commodity lists are not consulted. *)
Theorem asset_class_fixed_income (name ticker : string) :
  asset_class name ticker = FixedIncome <->
  (exists kw, In kw bond_keywords /\ occurs_in kw (lower name)) \/
  (exists kw, In kw bond_tickers /\ occurs_in kw (lower ticker)).
Proof.
  rewrite <- !any_in_spec, <- orb_true_iff. unfold asset_class.
  destruct (any_in bond_keywords (lower name) || any_in bond_tickers (lower ticker)).
  - split; reflexivity.
  - split; [|discriminate].
    destruct (any_in commodity_keywords (lower name) || any_in commodity_tickers (lower ticker));
      discriminate.
Qed.

(** A ticker that only contains a bond symbol is FixedIncome all the same. *)
Lemma asset_class_substring_ticker :
  asset_class "Total International" "BNDX" = FixedIncome /\
  any_in bond_keywords (lower "Total International") = false /\
  ~ In (lower "BNDX") bond_tickers.
Proof.
  split; [reflexivity|]. split; [reflexivity|].
  simpl. intros H. repeat (destruct H as [H|H]; [discriminate|]). exact H.
Qed.

(** ** C9 *)

(** C9 (as the code has it): the flag is true exactly when both averages are
    present, neither is zero, and the first is greater; it is never an error. *)
Theorem sma_gt_flag (a b : option float) :
  exists r,
    sma_gt a b = Ok r /\
    (r = true <->
     exists x y, a = Some x /\ b = Some y /\
                 float_truthy x = true /\ float_truthy y = true /\ (y <? x)%float = true).
Proof.
  rewrite sma_gt_spec. eexists. split; [reflexivity|].
  destruct a as [x|], b as [y|]; simpl.
  - rewrite !andb_true_iff. split.
    + intros [[H1 H2] H3]. exists x, y. auto.
    + intros (x' & y' & [= <-] & [= <-] & H1 & H2 & H3). auto.
  - split; [discriminate|]. intros (x' & y' & _ & H & _). discriminate.
  - split; [discriminate|]. intros (x' & y' & H & _). discriminate.
  - split; [discriminate|]. intros (x' & y' & H & _). discriminate.
Qed.

(** The two flags of a record are [sma_gt] of the averages of its history. *)
Lemma record_sma_flags (info : QuoteSnapshot) (hist : PriceSeries) (ticker : string)
    (d : dict) :
  build_record info hist ticker = Ok d ->
  exists s50 s150 s200 f1 f2,
    sma hist 50 = Ok s50 /\ sma hist 150 = Ok s150 /\ sma hist 200 = Ok s200 /\
    sma_gt s50 s150 = Ok f1 /\ sma_gt s150 s200 = Ok f2 /\
    dict_get "sma50gt150" d = Some (PBool f1) /\
    dict_get "sma150gt200" d = Some (PBool f2).
Proof.
  intros Hb. apply build_record_ok in Hb.
  destruct Hb as (r & l & s & Hr & _ & _ & _ & ->).
  destruct Hr as (H50 & H150 & H200 & _).
  exists (r_sma50 r), (r_sma150 r), (r_sma200 r),
         (sma_gt_value (r_sma50 r) (r_sma150 r)), (sma_gt_value (r_sma150 r) (r_sma200 r)).
  rewrite !sma_gt_spec. repeat split; assumption.
Qed.

Lemma sma_gt_zero_average :
  sma gap_history 50 = Ok (Some 10%float) /\
  sma gap_history 150 = Ok (Some 0%float) /\
  (0 <? 10)%float = true /\
  sma_gt (Some 10%float) (Some 0%float) = Ok false /\
  option_map (dict_get "sma50gt150")
    (match build_record empty_info gap_history "SPY" with Ok d => Some d | Raise _ => None end)
  = Some (Some (PBool false)).
Proof. vm_compute. repeat split. Qed.

(** ** C7 *)




(** ** C1 *)

(** With no usable field and a ticker outside the table, the record's
    [expense] is 30.0. *)
Lemma expense_default_in_record (info : QuoteSnapshot) (hist : PriceSeries)
    (ticker : string) (d : dict) :
  forallb (fun f => negb (usable_expense f)) (expense_fields info) = true ->
  expense_lookup ticker known_expenses = None ->
  build_record info hist ticker = Ok d ->
  dict_get "expense" d = Some (PFloat 30).
Proof.
  intros Hu Hl Hb.
  apply build_record_ok in Hb. destruct Hb as (r & l & s & Hr & _ & _ & _ & ->).
  destruct Hr as (_ & _ & _ & _ & _ & _ & _ & He & _).
  rewrite (get_expense_ratio_fallback info ticker Hu), Hl in He.
  inversion He as [He']. unfold record_of, result_dict. cbn [dict_get String.eqb Ascii.eqb Bool.eqb].
  simpl dict_get. rewrite <- He'. reflexivity.
Qed.

(** C1: for a quote without any expense field and a ticker outside the table
    the resolver gives 0.30 and the record shows 30.0, not 0.30. *)
Theorem expense_default_is_30 :
  forallb (fun f => negb (usable_expense f)) (expense_fields empty_info) = true /\
  expense_lookup "ZZZZ" known_expenses = None /\
  get_expense_ratio empty_info "ZZZZ" = Ok 0.30%float /\
  option_map (dict_get "expense")
    (match build_record empty_info [] "ZZZZ" with Ok d => Some d | Raise _ => None end)
  = Some (Some (PFloat 30)) /\
  (30 =? 0.30)%float = false.
Proof. vm_compute. repeat split. Qed.

(** ** C2 *)

Lemma series_div_last (a b : Series) :
  List.length a = List.length b -> a <> [] ->
  iloc_last (series_div a b) = Ok (last a nan / last b nan)%float.
Proof.
  revert b. induction a as [|x a IH]; intros b Hl Hn; [congruence|].
  destruct b as [|y b]; [discriminate|].
  destruct a as [|x' a].
  - destruct b; [reflexivity|discriminate].
  - destruct b as [|y' b]; [discriminate|].
    assert (H : iloc_last (series_div (x' :: a) (y' :: b))
                = Ok (last (x' :: a) nan / last (y' :: b) nan)%float).
    { apply IH; [simpl in *; lia|discriminate]. }
    simpl in *. exact H.
Qed.

Lemma diff_from_length (p : float) (s : Series) :
  List.length (diff_from p s) = List.length s.
Proof. revert p. induction s; intros p; simpl; auto. Qed.

Lemma series_diff_length (s : Series) : List.length (series_diff s) = List.length s.
Proof. destruct s; simpl; [reflexivity|]. rewrite diff_from_length. reflexivity. Qed.

Lemma rsi_gain_length (hist : PriceSeries) :
  List.length (rsi_gain hist) = List.length hist.
Proof.
  unfold rsi_gain, series_where, hist_close.
  rewrite rolling_mean_length, length_map, series_diff_length, length_map. reflexivity.
Qed.

Lemma rsi_loss_length (hist : PriceSeries) :
  List.length (rsi_loss hist) = List.length hist.
Proof.
  unfold rsi_loss, series_neg, series_where, hist_close.
  rewrite rolling_mean_length, !length_map, series_diff_length, length_map. reflexivity.
Qed.

(** A positive number over a zero is an infinity. *)
Lemma div_pos_by_zero (g l : float) :
  (0 <? g)%float = true -> (l =? 0)%float = true ->
  (g / l)%float = infinity \/ (g / l)%float = neg_infinity.
Proof.
  intros Hg Hl.
  rewrite ltb_zero_spec in Hg.
  assert (Hz : exists s, Prim2SF l = S754_zero s).
  { pose proof (float_truthy_spec l) as T. unfold float_truthy in T. rewrite Hl in T.
    destruct (Prim2SF l) as [s| | |]; try discriminate. eauto. }
  destruct Hz as [s Hs].
  assert (E : Prim2SF (g / l) = S754_infinity s).
  { rewrite div_spec, Hs.
    destruct (Prim2SF g) as [| [|] | | [|] m e]; try discriminate; reflexivity. }
  rewrite <- (SF2Prim_Prim2SF (g / l)), E.
  destruct s; [right|left]; reflexivity.
Qed.

(** C2 (as the code has it): when the 14-row mean of falls is zero and that
    of rises is positive, the RSI is 100, in [rsi_of] and in the record. *)
Theorem rsi_zero_loss (hist : PriceSeries) :
  (14 <= List.length hist)%nat ->
  (mean_loss hist =? 0)%float = true ->
  (0 <? mean_gain hist)%float = true ->
  rsi_of hist = Ok 100 /\
  forall info ticker d,
    build_record info hist ticker = Ok d -> dict_get "rsi" d = Some (PInt 100).
Proof.
  intros Hlen Hloss Hgain.
  assert (R : rsi_of hist = Ok 100).
  { unfold rsi_of.
    rewrite (hist_empty_false hist 14) by lia.
    destruct (14 <=? List.length hist)%nat eqn:C; [|apply Nat.leb_gt in C; lia].
    cbn [negb andb]. cbv zeta.
    rewrite series_div_last.
    2:{ rewrite rsi_gain_length, rsi_loss_length. reflexivity. }
    2:{ intros E. apply (f_equal (@List.length _)) in E.
        rewrite rsi_gain_length in E. simpl in E. lia. }
    cbn [bind].
    destruct (div_pos_by_zero _ _ Hgain Hloss) as [E|E];
      fold (mean_gain hist) (mean_loss hist) in E |- *; rewrite E; reflexivity. }
  split; [exact R|].
  intros info ticker d Hb.
  apply build_record_ok in Hb. destruct Hb as (r & l & s & Hr & _ & _ & _ & ->).
  destruct Hr as (_ & _ & _ & _ & _ & _ & _ & _ & _ & Hrsi & _).
  rewrite R in Hrsi. inversion Hrsi as [Hrsi']. unfold record_of, result_dict.
  simpl dict_get. rewrite <- Hrsi'. reflexivity.
Qed.

Lemma rsi_zero_loss_witness :
  rsi_of rising_history = Ok 100 /\
  forall info ticker d,
    build_record info rising_history ticker = Ok d -> dict_get "rsi" d = Some (PInt 100).
Proof.
  apply (rsi_zero_loss rising_history); vm_compute; [lia|reflexivity|reflexivity].
Defined.

(** Twenty rising days: no fall, and the record shows an RSI of 100. *)
Lemma rsi_all_gains_is_100 :
  (14 <= List.length rising_history)%nat /\
  (mean_loss rising_history =? 0)%float = true /\
  (0 <? mean_gain rising_history)%float = true /\
  option_map (dict_get "rsi")
    (match build_record empty_info rising_history "SPY" with Ok d => Some d | Raise _ => None end)
  = Some (Some (PInt 100)) /\
  100 <> 50.
Proof.
  vm_compute. repeat split; try lia. 
Qed.

(** ** C8 *)

Lemma py_int_floor_clamp (x : float) (fl : Z) :
  float_floor x = Some fl ->
  exists t, py_int x = Ok t /\ clamp 1000 99999 t = clamp 1000 99999 fl.
Proof.
  unfold float_floor, py_int.
  destruct (Prim2SF x) as [s|s| |s m e]; try discriminate.
  - intros [= <-]. exists 0. split; reflexivity.
  - intros [= <-]. eexists. split; [reflexivity|].
    destruct e as [|p|p]; try reflexivity.
    change (Z.shiftl (Z.pos m) (Z.neg p)) with (Z.shiftr (Z.pos m) (Z.pos p)).
    rewrite Z.shiftr_div_pow2 by lia.
    rewrite Pos2Z.inj_pow.
    assert (P : 0 < 2 ^ Z.pos p) by (apply Z.pow_pos_nonneg; lia).
    destruct s; simpl cond_Zopp; [|reflexivity].
    assert (A : 0 <= Z.pos m / 2 ^ Z.pos p) by (apply Z.div_pos; lia).
    assert (B : - Z.pos m / 2 ^ Z.pos p < 0) by (apply Z.div_lt_upper_bound; lia).
    unfold clamp. lia.
Qed.

Lemma float_floor_not_nan (x : float) (fl : Z) :
  float_floor x = Some fl -> is_nan x = false.
Proof.
  unfold float_floor. rewrite is_nan_spec.
  destruct (Prim2SF x); try discriminate; reflexivity.
Qed.

Lemma lwowski_of_truthy (aum volume : float) :
  float_truthy aum && float_truthy volume = true ->
  lwowski_of aum volume =
  (x <- safe_float (PFloat (liquidity_product aum volume)) 0 ;;
   l <- py_int x ;;
   Ok (clamp 1000 99999 l)).
Proof.
  intros H. apply andb_true_iff in H. destruct H as [Ha Hv].
  unfold lwowski_of, py_and. simpl. rewrite Ha. cbn [bind]. simpl. rewrite Hv.
  reflexivity.
Qed.

Lemma lwowski_of_falsy (aum volume : float) :
  float_truthy aum && float_truthy volume = false ->
  lwowski_of aum volume = Ok 5000.
Proof.
  intros H. unfold lwowski_of, py_and. simpl.
  destruct (float_truthy aum) eqn:Ha; cbn [bind]; simpl.
  - simpl in H. rewrite H. reflexivity.
  - rewrite Ha. reflexivity.
Qed.

Lemma truthy_both (aum volume : float) :
  (aum =? 0)%float = false -> (volume =? 0)%float = false ->
  float_truthy aum && float_truthy volume = true.
Proof. intros Ha Hv. unfold float_truthy. rewrite Ha, Hv. reflexivity. Qed.

Lemma truthy_not_both (aum volume : float) :
  (aum =? 0)%float = true \/ (volume =? 0)%float = true ->
  float_truthy aum && float_truthy volume = false.
Proof.
  unfold float_truthy. intros [H|H]; rewrite H; [reflexivity|apply andb_false_r].
Qed.

Lemma lwowski_of_range (aum volume : float) (l : Z) :
  lwowski_of aum volume = Ok l -> 1000 <= l <= 99999.
Proof.
  destruct (float_truthy aum && float_truthy volume) eqn:T.
  - rewrite (lwowski_of_truthy _ _ T).
    destruct (safe_float _ _) as [x|e]; [|discriminate]. cbn [bind].
    destruct (py_int x) as [t|e]; [|discriminate]. cbn [bind].
    intros [= <-]. unfold clamp. lia.
  - rewrite (lwowski_of_falsy _ _ T). intros [= <-]. lia.
Qed.

(** The record's [lwowski] is the score of the resolved AUM and volume, and
    there is no record when the score raises. *)
Lemma record_lwowski (info : QuoteSnapshot) (hist : PriceSeries) (ticker : string)
    (aum volume : float) :
  aum_of info = Ok aum -> volume_of info = Ok volume ->
  (forall d, build_record info hist ticker = Ok d ->
     exists l, lwowski_of aum volume = Ok l /\ dict_get "lwowski" d = Some (PInt l)) /\
  (forall e, lwowski_of aum volume = Raise e ->
     build_record info hist ticker = Raise e).
Proof.
  intros Ha Hv. split.
  - intros d Hb. apply build_record_ok in Hb.
    destruct Hb as (r & l & s & Hr & _ & Hl & _ & ->).
    destruct Hr as (_ & _ & _ & _ & Rv & _ & Ra & _).
    assert (r_aum r = aum) by congruence.
    assert (r_volume r = volume) by congruence. subst.
    exists l. split; [exact Hl|reflexivity].
  - intros e He.
    destruct (build_record_eq info hist ticker) as (r & Hr & _ & E).
    destruct Hr as (_ & _ & _ & _ & Rv & _ & Ra & _).
    assert (r_aum r = aum) by congruence.
    assert (r_volume r = volume) by congruence. subst.
    rewrite E, He. reflexivity.
Qed.

(** An AUM that the quote does not give resolves to zero. *)
Lemma aum_of_absent (info : QuoteSnapshot) :
  totalAssets info = Missing -> marketCap info = Missing -> aum_of info = Ok 0%float.
Proof. intros H1 H2. unfold aum_of. rewrite H1, H2. reflexivity. Qed.

(** C8 (as the code has it): the score is 5000 when AUM or volume is zero;
    otherwise, when the product is finite, it is the floor of the product
    clamped to [1000, 99999]; a NaN product scores 1000 and an infinite one
    raises [OverflowError].  A score, when there is one, lies in
    [1000, 99999]; it is the record's [lwowski], and there is no record when
    the score raises. *)
Theorem lwowski_score (aum volume : float) :
  ((aum =? 0)%float = true \/ (volume =? 0)%float = true ->
   lwowski_of aum volume = Ok 5000) /\
  ((aum =? 0)%float = false -> (volume =? 0)%float = false ->
   (forall fl, float_floor (liquidity_product aum volume) = Some fl ->
      lwowski_of aum volume = Ok (clamp 1000 99999 fl)) /\
   (is_nan (liquidity_product aum volume) = true ->
      lwowski_of aum volume = Ok 1000) /\
   (is_infinity (liquidity_product aum volume) = true ->
      lwowski_of aum volume = Raise OverflowError)) /\
  (forall l, lwowski_of aum volume = Ok l -> 1000 <= l <= 99999) /\
  (forall info hist ticker,
     aum_of info = Ok aum -> volume_of info = Ok volume ->
     (forall d, build_record info hist ticker = Ok d ->
        exists l, lwowski_of aum volume = Ok l /\ dict_get "lwowski" d = Some (PInt l)) /\
     (forall e, lwowski_of aum volume = Raise e ->
        build_record info hist ticker = Raise e)).
Proof.
  split; [intros H; apply lwowski_of_falsy, truthy_not_both, H|].
  split; [|split; [apply lwowski_of_range|]].
  2:{ intros info hist ticker. apply record_lwowski. }
  intros Ha Hv. pose proof (truthy_both aum volume Ha Hv) as T.
  rewrite (lwowski_of_truthy _ _ T), safe_float_float.
  split; [|split].
  - intros fl Hf. rewrite (float_floor_not_nan _ _ Hf). cbn [bind].
    destruct (py_int_floor_clamp _ _ Hf) as (t & Ht & Hc).
    rewrite Ht. cbn [bind]. rewrite Hc. reflexivity.
  - intros Hn. rewrite Hn. reflexivity.
  - intros Hi.
    unfold is_infinity in Hi. rewrite eqb_spec, abs_spec in Hi.
    change (Prim2SF infinity) with (S754_infinity false) in Hi.
    rewrite is_nan_spec. unfold py_int.
    destruct (Prim2SF (liquidity_product aum volume)) as [s|s| |s m e] eqn:E;
      try discriminate.
    cbn [bind]. unfold py_int. rewrite E. reflexivity.
Qed.

Lemma lwowski_score_witness :
  lwowski_of 0 5e7 = Ok 5000 /\
  lwowski_of 4e9 5e7 = Ok 2000 /\
  lwowski_of infinity 1e-320 = Ok 1000 /\
  lwowski_of 1e200 1e200 = Raise OverflowError.
Proof.
  split; [|split; [|split]].
  - apply (proj1 (lwowski_score 0 5e7)). left. reflexivity.
  - apply (proj1 (proj1 (proj2 (lwowski_score 4e9 5e7)) eq_refl eq_refl) 2000). reflexivity.
  - apply (proj1 (proj2 (proj1 (proj2 (lwowski_score infinity 1e-320)) eq_refl eq_refl))).
    reflexivity.
  - apply (proj2 (proj2 (proj1 (proj2 (lwowski_score 1e200 1e200)) eq_refl eq_refl))).
    reflexivity.
Defined.

(** Two finite, non-zero inputs for which there is no score. *)
Lemma lwowski_overflow :
  float_truthy 1e200 && float_truthy 1e200 = true /\
  is_finite 1e200 = true /\
  lwowski_of 1e200 1e200 = Raise OverflowError /\
  get_etf_data
    {| yf_info := fun _ => Ok {| regularMarketPrice := Missing; currentPrice := Missing;
                                 regularMarketVolume := Val (NFloat 1e200);
                                 fiftyTwoWeekHigh := Missing;
                                 totalAssets := Val (NFloat 1e200); marketCap := Missing;
                                 regularMarketPreviousClose := Missing;
                                 longName := Missing; shortName := Missing;
                                 annualReportExpenseRatio := Missing; expenseRatio := Missing;
                                 annualExpenseRatio := Missing;
                                 prospectusNetExpenseRatio := Missing;
                                 managementExpenseRatio := Missing |};
       yf_history := fun _ => Ok [] |} "SPY" = Ok None.
Proof. vm_compute. repeat split. Qed.

(** ** C10 *)

Lemma eqb_zero_spec (x : float) :
  (x =? 0)%float = match Prim2SF x with S754_zero _ => true | _ => false end.
Proof.
  pose proof (float_truthy_spec x) as T. unfold float_truthy in T.
  destruct (x =? 0)%float; destruct (Prim2SF x); simpl in T; congruence.
Qed.

Lemma near_52w_pct_zero_high (price w : float) :
  (w =? 0)%float = true -> near_52w_pct_of price w = Ok 100%float.
Proof.
  intros H. unfold near_52w_pct_of, py_and. simpl.
  unfold float_truthy. rewrite H. cbn [negb bind]. simpl.
  unfold float_truthy. rewrite H. reflexivity.
Qed.

Lemma Prim2SF_098 : Prim2SF 0.98 = S754_finite false 8827055269646172 (-53).
Proof. reflexivity. Qed.

Lemma close_above_zero_high (price w : float) :
  (w =? 0)%float = true -> (0 <=? price)%float = true ->
  close_above_52w_of price w = true.
Proof.
  intros Hw Hp. unfold close_above_52w_of, safe_bool. simpl.
  rewrite eqb_zero_spec in Hw. rewrite leb_zero_spec in Hp.
  rewrite leb_spec, mul_spec, Prim2SF_098.
  destruct (Prim2SF w) as [s| | |]; try discriminate.
  destruct (Prim2SF price) as [sp|[|]| |[|] m e]; try discriminate; reflexivity.
Qed.

(** C10 (as the code has it): when the resolved 52-week high is zero and the
    resolved price is not negative, [near52wpct] is 100 and [closeAbove52w]
    is true, in every record built; and the record is built whenever the two
    conversions to int (the score and the AUM text) succeed. *)
Theorem zero_week52_high (info : QuoteSnapshot) (hist : PriceSeries) (ticker : string)
    (price w : float) :
  price_of info hist = Ok price ->
  week52_high_of info hist price = Ok w ->
  (w =? 0)%float = true ->
  (0 <=? price)%float = true ->
  near_52w_pct_of price w = Ok 100%float /\
  close_above_52w_of price w = true /\
  (forall d, build_record info hist ticker = Ok d ->
     dict_get "closeAbove52w" d = Some (PBool true) /\
     dict_get "near52wpct" d = Some (PFloat 100)) /\
  (forall aum volume l s,
     aum_of info = Ok aum -> volume_of info = Ok volume ->
     lwowski_of aum volume = Ok l -> aum_text aum = Ok s ->
     exists d, build_record info hist ticker = Ok d).
Proof.
  intros Hp Hw Hz Hpos.
  pose proof (near_52w_pct_zero_high price w Hz) as Hn.
  pose proof (close_above_zero_high price w Hz Hpos) as Hc.
  split; [exact Hn|]. split; [exact Hc|]. split.
  - intros d Hb. apply build_record_ok in Hb.
    destruct Hb as (r & l & s & Hr & _ & _ & _ & ->).
    destruct Hr as (_ & _ & _ & Rp & _ & Rw & _ & _ & Rn & _).
    assert (r_price r = price) by congruence. subst price.
    assert (r_week52_high r = w) by congruence. subst w.
    rewrite Hn in Rn. inversion Rn as [Rn'].
    unfold record_of, result_dict. simpl dict_get.
    rewrite Hc, <- Rn'. split; reflexivity.
  - intros aum volume l s Ha Hv Hl Hs.
    destruct (build_record_eq info hist ticker) as (r & Hr & _ & E).
    destruct Hr as (_ & _ & _ & _ & Rv & _ & Ra & _).
    assert (r_aum r = aum) by congruence.
    assert (r_volume r = volume) by congruence. subst.
    rewrite E, Hl. cbn [bind]. rewrite Hs. cbn [bind]. eauto.
Qed.

Lemma zero_week52_high_witness :
  near_52w_pct_of 0 0 = Ok 100%float /\
  close_above_52w_of 0 0 = true /\
  (forall d, build_record empty_info [] "ZZZZ" = Ok d ->
     dict_get "closeAbove52w" d = Some (PBool true) /\
     dict_get "near52wpct" d = Some (PFloat 100)) /\
  (forall aum volume l s,
     aum_of empty_info = Ok aum -> volume_of empty_info = Ok volume ->
     lwowski_of aum volume = Ok l -> aum_text aum = Ok s ->
     exists d, build_record empty_info [] "ZZZZ" = Ok d).
Proof.
  apply (zero_week52_high empty_info [] "ZZZZ" 0 0); reflexivity.
Defined.

Lemma zero_high_false_flag :
  price_of negative_price_info [] = Ok (-1)%float /\
  week52_high_of negative_price_info [] (-1) = Ok 0%float /\
  option_map (dict_get "closeAbove52w")
    (match build_record negative_price_info [] "SPY" with Ok d => Some d | Raise _ => None end)
  = Some (Some (PBool false)).
Proof. vm_compute. repeat split. Qed.

(** ** A batch of three *)

Example batch_of_three :
  exists d1 d3,
    get_etfs_over sample_provider ["AAA"; "BBB"; "CCC"] =
    Ok {| status := "success"; count := Some 2%nat; message := None;
          data := [d1; d3]; http_status := 200 |} /\
    ticker_of d1 = Some (PStr "AAA") /\
    ticker_of d3 = Some (PStr "CCC").
Proof. vm_compute. do 2 eexists. repeat split. Qed.

(** ** Further checks of the embedding *)

Lemma rsi_short (hist : PriceSeries) :
  (List.length hist < 14)%nat -> rsi_of hist = Ok 50.
Proof.
  intros H. unfold rsi_of.
  destruct (14 <=? List.length hist)%nat eqn:C; [apply Nat.leb_le in C; lia|].
  rewrite andb_false_r. reflexivity.
Qed.

Example aum_text_millions :
  aum_text 1234567000 = Ok "1234" /\ aum_text 0 = Ok "N/A".
Proof. split; reflexivity. Qed.

Example treasury_is_fixed_income :
  asset_class "iShares 20+ Year Treasury Fund" "XYZ" = FixedIncome.
Proof. reflexivity. Qed.

Example gold_bond_is_fixed_income :
  asset_class "Gold Miners Bond Fund" "GLD" = FixedIncome.
Proof. reflexivity. Qed.

Example flat_prices_keep_default_rsi :
  rsi_of (repeat (flat_bar 10) 20) = Ok 50.
Proof. reflexivity. Qed.

Example spy_expense_from_table :
  option_map (dict_get "expense")
    (match build_record empty_info [] "SPY" with Ok d => Some d | Raise _ => None end)
  = Some (Some (PFloat 9.45)).
Proof. reflexivity. Qed.

(* ================================================================== *)
(** * 8. Further properties of the code *)
(* ================================================================== *)

(** ** Signs of rounded values *)

Lemma binary_round_aux_nonneg (m e : Z) (l : location) :
  0 <= m -> sf_nonneg (binary_round_aux prec emax false m e l).
Proof.
  intros H. unfold binary_round_aux.
  pose proof (shr_fexp_nonneg m e l H) as H1.
  destruct (shr_fexp prec emax m e l) as [mrs' e'] eqn:E1. simpl in H1.
  destruct (shr_fexp prec emax (round_nearest_even (shr_m mrs') (loc_of_shr_record mrs')) e' loc_Exact)
    as [mrs'' e''] eqn:E2.
  pose proof (shr_fexp_nonneg _ e' loc_Exact
                (round_nearest_even_nonneg _ (loc_of_shr_record mrs') H1)) as H2.
  rewrite E2 in H2. simpl in H2.
  destruct (shr_m mrs'') as [|p|p]; simpl; auto; try lia.
  destruct (e'' <=? 971); exact I.
Qed.

Lemma binary_round_nonneg (m : positive) (e : Z) :
  sf_nonneg (binary_round prec emax false m e).
Proof.
  unfold binary_round.
  destruct (shl_align m e (fexp prec emax (Z.pos (digits2_pos m) + e))) as [mz ez].
  apply binary_round_aux_nonneg. lia.
Qed.

Lemma binary_normalize_nonneg (z e : Z) :
  0 <= z -> sf_nonneg (binary_normalize prec emax z e false).
Proof.
  intros H. destruct z as [|p|p]; simpl; [exact I|apply binary_round_nonneg|lia].
Qed.

Lemma SFldexp_nonneg (x : spec_float) (e : Z) :
  sf_nonneg x -> sf_nonneg (SFldexp prec emax x e).
Proof.
  destruct x as [s|[|]| |[|] m ex]; simpl; intros H; try contradiction; auto.
  apply binary_round_nonneg.
Qed.

Lemma SF2Prim_nonneg (x : spec_float) :
  sf_nonneg x -> sf_nonneg (Prim2SF (SF2Prim x)).
Proof.
  destruct x as [[|]|[|]| |[|] m e]; simpl; try contradiction; intros _;
    try (vm_compute; exact I).
  rewrite Z_ldexp_spec. apply SFldexp_nonneg.
  rewrite of_uint63_spec. apply binary_normalize_nonneg.
  apply (Uint63.to_Z_bounded (Uint63.of_Z (Z.pos m))).
Qed.

Lemma leb_zero_nonneg (x : float) : (0 <=? x)%float = true <-> sf_nonneg (Prim2SF x).
Proof.
  rewrite leb_zero_spec.
  destruct (Prim2SF x) as [s|[|]| |[|] m e]; simpl; split; auto; try discriminate; contradiction.
Qed.

Lemma float_of_int_nonneg (z : Z) (y : float) :
  0 <= z -> float_of_int z = Ok y -> (0 <=? y)%float = true.
Proof.
  intros Hz H. unfold float_of_int in H.
  pose proof (binary_normalize_nonneg z 0 Hz) as Hn.
  assert (Hy : y = SF2Prim (binary_normalize prec emax z 0 false)).
  { destruct (binary_normalize prec emax z 0 false); congruence. }
  subst y. apply leb_zero_nonneg, SF2Prim_nonneg, Hn.
Qed.

(** ** [safe_float] on a number of the quote *)

Lemma safe_float_num (n : num) : safe_float (num_val n) 0 = Ok (num_to_float n).
Proof.
  destruct n as [z|x]; simpl.
  - unfold safe_float. simpl. destruct (float_of_int z); reflexivity.
  - apply safe_float_float.
Qed.

Lemma num_to_float_nonneg (f : field num) (n : num) :
  f = Val n -> usable_expense f = true -> (0 <=? num_to_float n)%float = true.
Proof.
  intros -> H. destruct n as [z|x]; simpl in *.
  - apply Z.ltb_lt in H.
    destruct (float_of_int z) as [y|e] eqn:E; [|reflexivity].
    apply (float_of_int_nonneg z y); [lia|exact E].
  - apply andb_true_iff in H. destruct H as [Hn Hp].
    apply negb_true_iff in Hn. rewrite Hn.
    rewrite ltb_zero_spec in Hp. rewrite leb_zero_spec.
    destruct (Prim2SF x) as [s|[|]| |[|] m e]; try discriminate; reflexivity.
Qed.

Lemma usable_is_val (f : field num) :
  usable_expense f = true -> exists n, f = Val n.
Proof. destruct f as [| |n]; try discriminate. eauto. Qed.

(** ** The expense ratio *)

Lemma scan_expense_first (pre post : list (field num)) (f : field num) (n : num) :
  forallb (fun g => negb (usable_expense g)) pre = true ->
  f = Val n -> usable_expense f = true ->
  scan_expense (map (fun g => info_get g PNone) (pre ++ f :: post)) =
  Ok (Some (num_to_float n)).
Proof.
  intros Hpre -> Hf. induction pre as [|g pre IH]; simpl.
  - change (info_get (Val n) PNone) with (num_val n).
    pose proof (expense_usable_field (Val n)) as E. simpl info_get in E.
    rewrite E, Hf. cbn [bind]. rewrite safe_float_num. reflexivity.
  - simpl in Hpre. apply andb_true_iff in Hpre. destruct Hpre as [Hg Hpre].
    rewrite expense_usable_field. cbn [bind].
    apply negb_true_iff in Hg. rewrite Hg. apply IH, Hpre.
Qed.

(** X1: the first usable key, in the order of [expense_fields], decides the
    expense ratio, whatever the later keys and the table hold. *)
Theorem expense_first_usable_wins (info : QuoteSnapshot) (ticker : string)
    (pre post : list (field num)) (n : num) :
  expense_fields info = (pre ++ Val n :: post)%list ->
  forallb (fun g => negb (usable_expense g)) pre = true ->
  usable_expense (Val n) = true ->
  get_expense_ratio info ticker = Ok (num_to_float n).
Proof.
  intros Hs Hpre Hn. unfold get_expense_ratio. rewrite Hs.
  rewrite (scan_expense_first pre post (Val n) n Hpre eq_refl Hn). reflexivity.
Qed.

Lemma expense_first_usable_wins_witness :
  get_expense_ratio two_ratios_info "SPY" = Ok 0.0009%float.
Proof.
  apply (expense_first_usable_wins two_ratios_info "SPY"
           [Null] [Val (NFloat 0.5); Missing; Missing] (NFloat 0.0009));
    reflexivity.
Defined.

Lemma scan_expense_nonneg (fs : list (field num)) :
  exists o, scan_expense (map (fun f => info_get f PNone) fs) = Ok o /\
            match o with
            | Some x => is_nan x = false /\ (0 <=? x)%float = true
            | None => forallb (fun f => negb (usable_expense f)) fs = true
            end.
Proof.
  induction fs as [|f fs IH]; simpl.
  - exists None. split; reflexivity.
  - rewrite expense_usable_field. cbn [bind].
    destruct (usable_expense f) eqn:U.
    + destruct (usable_is_val f U) as [n ->].
      change (info_get (Val n) PNone) with (num_val n).
      rewrite safe_float_num. cbn [bind]. eexists. split; [reflexivity|].
      split; [|apply (num_to_float_nonneg (Val n) n eq_refl U)].
      destruct (safe_float_numeric (num_val n) 0%float) as [x [Hx Hn]];
        [destruct n; exact I|reflexivity|].
      rewrite safe_float_num in Hx. congruence.
    + destruct IH as [o [Ho Hp]]. exists o. split; [exact Ho|].
      destruct o; simpl; auto.
Qed.

Lemma known_expenses_nonneg :
  forallb (fun kv => (0 <=? snd kv)%float) known_expenses = true.
Proof. vm_compute. reflexivity. Qed.

Lemma expense_lookup_forallb (P : float -> bool) (ticker : string)
    (table : list (string * float)) (x : float) :
  forallb (fun kv => P (snd kv)) table = true ->
  expense_lookup ticker table = Some x -> P x = true.
Proof.
  induction table as [|[k v] t IH]; [discriminate|].
  unfold expense_lookup; fold expense_lookup. cbn [forallb snd].
  intros H. apply andb_true_iff in H. destruct H as [Hv Ht].
  destruct (String.eqb ticker k).
  - intros [= <-]. exact Hv.
  - apply IH, Ht.
Qed.

(** X2: the resolver never raises, and what it returns is a number that is
    not negative (0.30 for a ticker that neither the quote nor the table
    knows). *)
Theorem get_expense_ratio_usable (info : QuoteSnapshot) (ticker : string) :
  exists x,
    get_expense_ratio info ticker = Ok x /\
    is_nan x = false /\
    (0 <=? x)%float = true.
Proof.
  unfold get_expense_ratio.
  destruct (scan_expense_nonneg (expense_fields info)) as [o [Ho Hp]].
  rewrite Ho. cbn [bind]. destruct o as [x|].
  - exists x. split; [reflexivity|exact Hp].
  - eexists. split; [reflexivity|].
    destruct (expense_lookup ticker known_expenses) as [x|] eqn:E.
    + split.
      * eapply expense_lookup_not_nan; [apply known_expenses_not_nan|exact E].
      * apply (expense_lookup_forallb (fun v => (0 <=? v)%float) ticker known_expenses x
                 known_expenses_nonneg E).
    + split; reflexivity.
Qed.

Lemma universe_in_table :
  forallb (fun t => match expense_lookup t known_expenses with Some _ => true | None => false end)
          ETF_TICKERS = true.
Proof. vm_compute. reflexivity. Qed.

(** X3: the table has an entry for every ticker of the universe, so for a
    universe ticker whose quote has no usable expense key the resolver returns
    the table's entry and never the default. *)
Theorem universe_expense_from_table (info : QuoteSnapshot) (ticker : string) :
  In ticker ETF_TICKERS ->
  forallb (fun f => negb (usable_expense f)) (expense_fields info) = true ->
  exists x,
    expense_lookup ticker known_expenses = Some x /\
    get_expense_ratio info ticker = Ok x.
Proof.
  intros Hin Hu.
  pose proof universe_in_table as H. rewrite forallb_forall in H.
  specialize (H ticker Hin).
  rewrite (get_expense_ratio_fallback info ticker Hu).
  destruct (expense_lookup ticker known_expenses) as [x|]; [|discriminate].
  exists x. split; reflexivity.
Qed.

Lemma universe_expense_from_table_witness :
  exists x,
    expense_lookup "TLT" known_expenses = Some x /\
    get_expense_ratio empty_info "TLT" = Ok x.
Proof.
  apply (universe_expense_from_table empty_info "TLT"); [|reflexivity].
  vm_compute. do 12 right. left. reflexivity.
Defined.

(** ** The classifier *)

Lemma bond_match_spec (name ticker : string) :
  any_in bond_keywords (lower name) || any_in bond_tickers (lower ticker) = true
  <-> bond_match name ticker.
Proof. unfold bond_match. rewrite orb_true_iff, !any_in_spec. reflexivity. Qed.

Lemma commodity_match_spec (name ticker : string) :
  any_in commodity_keywords (lower name) || any_in commodity_tickers (lower ticker) = true
  <-> commodity_match name ticker.
Proof. unfold commodity_match. rewrite orb_true_iff, !any_in_spec. reflexivity. Qed.

(** X4: the classifier decides in this order: Commodity exactly when the bond
    test fails and the commodity test holds, Equity exactly when both fail. *)
Theorem asset_class_decision (name ticker : string) :
  (asset_class name ticker = Commodity <->
   ~ bond_match name ticker /\ commodity_match name ticker) /\
  (asset_class name ticker = Equity <->
   ~ bond_match name ticker /\ ~ commodity_match name ticker).
Proof.
  rewrite <- bond_match_spec, <- commodity_match_spec. unfold asset_class.
  destruct (any_in bond_keywords (lower name) || any_in bond_tickers (lower ticker));
    destruct (any_in commodity_keywords (lower name)
              || any_in commodity_tickers (lower ticker));
    repeat split; try discriminate; try congruence; intros [H1 H2]; congruence.
Qed.

Lemma lower_ascii_idempotent (c : ascii) : lower_ascii (lower_ascii c) = lower_ascii c.
Proof.
  destruct c as [[|] [|] [|] [|] [|] [|] [|] [|]]; vm_compute; reflexivity.
Qed.

Lemma lower_idempotent (s : string) : lower (lower s) = lower s.
Proof.
  induction s as [|c s IH]; simpl; [reflexivity|].
  rewrite lower_ascii_idempotent, IH. reflexivity.
Qed.

(** X5: the class does not depend on the case of the letters: a name and a
    ticker classify as their lower-case forms do. *)
Theorem asset_class_ignores_case (name ticker : string) :
  asset_class (lower name) (lower ticker) = asset_class name ticker.
Proof.
  unfold asset_class. rewrite !lower_idempotent. reflexivity.
Qed.

(** ** The resolved values *)

Lemma safe_float_blank (f : field num) (default : pyval) :
  blank f -> safe_float (info_get f default) 0 = Ok 0%float.
Proof.
  intros [-> | [x [-> Hx]]]; simpl.
  - reflexivity.
  - rewrite safe_float_float, Hx. reflexivity.
Qed.

(** X6: a key that is present but holds [None] or NaN resolves to 0.0; the
    fallback behind it (the next key, the history, 99% of the price) is not
    used. *)
Theorem blank_key_resolves_to_zero (info : QuoteSnapshot) (hist : PriceSeries)
    (price : float) :
  (blank (regularMarketPrice info) -> price_of info hist = Ok 0%float) /\
  (blank (regularMarketVolume info) -> volume_of info = Ok 0%float) /\
  (blank (fiftyTwoWeekHigh info) -> week52_high_of info hist price = Ok 0%float) /\
  (blank (totalAssets info) -> aum_of info = Ok 0%float) /\
  (blank (regularMarketPreviousClose info) -> prev_close_of info price = Ok 0%float).
Proof.
  repeat split; intros H.
  - unfold price_of. destruct hist as [|b hist]; cbn [hist_empty negb].
    + cbn [bind]. apply safe_float_blank, H.
    + rewrite iloc_last_nonempty by discriminate. cbn [bind].
      apply safe_float_blank, H.
  - apply safe_float_blank, H.
  - apply safe_float_blank, H.
  - apply safe_float_blank, H.
  - apply safe_float_blank, H.
Qed.

Lemma blank_key_resolves_to_zero_witness :
  price_of null_price_info [flat_bar 30] = Ok 0%float /\
  volume_of null_price_info = Ok 0%float /\
  week52_high_of null_price_info [flat_bar 30] 7 = Ok 0%float /\
  aum_of null_price_info = Ok 0%float /\
  prev_close_of null_price_info 7 = Ok 0%float.
Proof.
  pose proof (blank_key_resolves_to_zero null_price_info [flat_bar 30] 7)
    as (H1 & H2 & H3 & H4 & H5).
  refine (conj (H1 _) (conj (H2 _) (conj (H3 _) (conj (H4 _) (H5 _))))); left; reflexivity.
Defined.

(** X7: the price is the first of [regularMarketPrice], [currentPrice], the
    last close, 0 that is not missing, converted by [safe_float]. *)
Theorem price_fallback_chain (info : QuoteSnapshot) (hist : PriceSeries) :
  (forall n, regularMarketPrice info = Val n ->
     price_of info hist = Ok (num_to_float n)) /\
  (forall n, regularMarketPrice info = Missing -> currentPrice info = Val n ->
     price_of info hist = Ok (num_to_float n)) /\
  (regularMarketPrice info = Missing -> currentPrice info = Missing ->
   price_of info hist =
   Ok match hist with
      | [] => 0%float
      | _ => num_to_float (NFloat (last (hist_close hist) nan))
      end).
Proof.
  assert (L : forall k : pyval -> result float,
             (last_close <-
                (if negb (hist_empty hist)
                 then c <- iloc_last (hist_close hist);; Ok (PFloat c)
                 else Ok (PInt 0));; k last_close)
             = k (match hist with
                  | [] => PInt 0
                  | _ => PFloat (last (hist_close hist) nan)
                  end)).
  { intros k. destruct hist as [|b hist]; [reflexivity|].
    cbn [hist_empty negb]. rewrite iloc_last_nonempty by discriminate. reflexivity. }
  unfold price_of. rewrite L. repeat split.
  - intros n H. rewrite H. apply safe_float_num.
  - intros n H1 H2. rewrite H1, H2. apply safe_float_num.
  - intros H1 H2. rewrite H1, H2. cbn [info_get].
    destruct hist as [|b hist]; [reflexivity|]. apply safe_float_float.
Qed.

Lemma price_fallback_chain_witness :
  price_of two_ratios_info [flat_bar 30; flat_bar 31] = Ok 31%float /\
  price_of two_ratios_info [] = Ok 0%float.
Proof.
  split.
  - apply (proj2 (proj2 (price_fallback_chain two_ratios_info [flat_bar 30; flat_bar 31])));
      reflexivity.
  - apply (proj2 (proj2 (price_fallback_chain two_ratios_info []))); reflexivity.
Defined.

(** X8: [near52wpct] before rounding is 100 for every high that is not above
    zero, and price / high * 100 (0.0 if that is NaN) for a positive high. *)
Theorem near_52w_pct_value (price w : float) :
  ((0 <? w)%float = false -> near_52w_pct_of price w = Ok 100%float) /\
  ((0 <? w)%float = true ->
   near_52w_pct_of price w =
   Ok (let q := (price / w * 100)%float in if is_nan q then 0%float else q)).
Proof.
  unfold near_52w_pct_of, py_and. rewrite py_gt_float_zero. split; intros H.
  - rewrite H. simpl py_bool.
    destruct (float_truthy w) eqn:T; cbn [bind py_bool]; [reflexivity|].
    rewrite T. reflexivity.
  - simpl py_bool. rewrite (gt_zero_truthy w H). cbn [bind py_bool]. rewrite H.
    apply safe_float_float.
Qed.

Lemma near_52w_pct_value_witness :
  near_52w_pct_of 50 (-3) = Ok 100%float /\
  near_52w_pct_of 50 200 = Ok 25%float /\
  near_52w_pct_of infinity infinity = Ok 0%float.
Proof.
  split; [|split].
  - apply (proj1 (near_52w_pct_value 50 (-3))). reflexivity.
  - apply (proj2 (near_52w_pct_value 50 200)). reflexivity.
  - apply (proj2 (near_52w_pct_value infinity infinity)). reflexivity.
Defined.

(** ** The third flag *)

(** X9: [sma200Slope] is true exactly when the 200-day average is present,
    is not zero, and is below the price; it is never an error, and it is the
    flag of every record built. *)
Theorem sma200_slope_flag (sma200 : option float) (price : float) :
  (exists r,
     sma200_slope_of sma200 price = Ok r /\
     (r = true <->
      exists x, sma200 = Some x /\ float_truthy x = true /\ (x <? price)%float = true)) /\
  (forall info hist ticker d,
     sma hist 200 = Ok sma200 -> price_of info hist = Ok price ->
     build_record info hist ticker = Ok d ->
     exists r, sma200_slope_of sma200 price = Ok r /\
               dict_get "sma200Slope" d = Some (PBool r)).
Proof.
  split.
  - rewrite sma200_slope_of_spec. eexists. split; [reflexivity|].
    destruct sma200 as [x|].
    + rewrite andb_true_iff. split.
      * intros [H1 H2]. exists x. auto.
      * intros (x' & [= <-] & H1 & H2). auto.
    + split; [discriminate|]. intros (x' & H & _). discriminate.
  - intros info hist ticker d Hs Hp Hb.
    apply build_record_ok in Hb. destruct Hb as (r & l & s & Hr & _ & _ & _ & ->).
    destruct Hr as (_ & _ & R200 & Rp & _).
    assert (r_sma200 r = sma200) by congruence.
    assert (r_price r = price) by congruence. subst.
    rewrite sma200_slope_of_spec. eexists. split; reflexivity.
Qed.

Lemma sma200_slope_flag_witness :
  exists r,
    sma200_slope_of None 0 = Ok r /\
    dict_get "sma200Slope"
      (record_of empty_info "SPY"
         {| r_sma50 := None; r_sma150 := None; r_sma200 := None;
            r_price := 0; r_volume := 0; r_week52_high := 0; r_aum := 0;
            r_expense_ratio := 0.0945; r_near_52w_pct := 100; r_rsi := 50;
            r_prev_close := 0 |} 5000 "N/A")
    = Some (PBool r).
Proof.
  apply (proj2 (sma200_slope_flag None 0) empty_info [] "SPY"); reflexivity.
Defined.

(** ** RSI *)

Lemma zero_over_zero (g l : float) :
  (g =? 0)%float = true -> (l =? 0)%float = true -> is_nan (g / l) = true.
Proof.
  rewrite !eqb_zero_spec, is_nan_spec, div_spec.
  destruct (Prim2SF g); try discriminate. destruct (Prim2SF l); try discriminate.
  reflexivity.
Qed.

Lemma rsi_val_nan (rs : float) :
  is_nan rs = true -> is_nan (100 - 100 / (1 + rs)) = true.
Proof.
  rewrite !is_nan_spec, sub_spec, div_spec, add_spec.
  destruct (Prim2SF rs); try discriminate. intros _. reflexivity.
Qed.

(** X10: the RSI never raises; it is the default 50 when the history has
    fewer than 14 rows, and when the 14-row means of rises and of falls are
    both zero (no movement: 0/0 is NaN). *)
Theorem rsi_default (hist : PriceSeries) :
  (exists r, rsi_of hist = Ok r) /\
  ((List.length hist < 14)%nat -> rsi_of hist = Ok 50) /\
  ((14 <= List.length hist)%nat ->
   (mean_gain hist =? 0)%float = true -> (mean_loss hist =? 0)%float = true ->
   rsi_of hist = Ok 50).
Proof.
  split; [apply rsi_of_total|]. split; [apply rsi_short|].
  intros Hlen Hg Hl. unfold rsi_of.
  rewrite (hist_empty_false hist 14) by lia.
  destruct (14 <=? List.length hist)%nat eqn:C; [|apply Nat.leb_gt in C; lia].
  cbn [negb andb]. cbv zeta.
  rewrite series_div_last.
  2:{ rewrite rsi_gain_length, rsi_loss_length. reflexivity. }
  2:{ intros E. apply (f_equal (@List.length _)) in E.
      rewrite rsi_gain_length in E. simpl in E. lia. }
  cbn [bind]. fold (mean_gain hist) (mean_loss hist).
  cbn [pd_isna_scalar]. rewrite (rsi_val_nan _ (zero_over_zero _ _ Hg Hl)). reflexivity.
Qed.

Lemma rsi_default_witness :
  rsi_of [flat_bar 10] = Ok 50 /\ rsi_of flat_history = Ok 50.
Proof.
  split.
  - apply (proj1 (proj2 (rsi_default [flat_bar 10]))). simpl. lia.
  - apply (proj2 (proj2 (rsi_default flat_history))); vm_compute; [lia|reflexivity|reflexivity].
Defined.

(** ** The name *)

Lemma str_take_prefix (n : nat) (s : string) :
  exists rest, s = str_take n s ++ rest.
Proof.
  unfold str_take. revert s. induction n as [|n IH]; intros s.
  - exists s. destruct s; reflexivity.
  - destruct s as [|c s]; simpl.
    + exists "". reflexivity.
    + destruct (IH s) as [rest H]. exists rest. congruence.
Qed.

Lemma str_take_length (n : nat) (s : string) :
  String.length (str_take n s) = Nat.min n (String.length s).
Proof.
  unfold str_take. revert s. induction n as [|n IH]; intros s.
  - destruct s; reflexivity.
  - destruct s as [|c s]; simpl; [reflexivity|]. rewrite IH. reflexivity.
Qed.

Lemma str_take_all (n : nat) (s : string) :
  (String.length s <= n)%nat -> str_take n s = s.
Proof.
  unfold str_take. revert s. induction n as [|n IH]; intros s H.
  - destruct s; [reflexivity|simpl in H; lia].
  - destruct s as [|c s]; simpl; [reflexivity|]. rewrite IH; [reflexivity|simpl in H; lia].
Qed.

(** X11: the record's name is the first 60 characters of the resolved name:
    a prefix of it, at most 60 long, and the whole name when that has 60
    characters or fewer. *)
Theorem record_name_truncated (info : QuoteSnapshot) (hist : PriceSeries)
    (ticker : string) (d : dict) :
  build_record info hist ticker = Ok d ->
  exists nm,
    dict_get "name" d = Some (PStr nm) /\
    (exists rest, name_of info ticker = nm ++ rest) /\
    String.length nm = Nat.min 60 (String.length (name_of info ticker)) /\
    ((String.length (name_of info ticker) <= 60)%nat -> nm = name_of info ticker).
Proof.
  intros Hb. apply build_record_ok in Hb.
  destruct Hb as (r & l & s & _ & _ & _ & _ & ->).
  exists (str_take 60 (name_of info ticker)).
  split; [reflexivity|]. split; [apply str_take_prefix|].
  split; [apply str_take_length|apply str_take_all].
Qed.

Lemma record_name_truncated_witness :
  exists nm,
    dict_get "name" (record_of empty_info "SPY"
                       {| r_sma50 := None; r_sma150 := None; r_sma200 := None;
                          r_price := 0; r_volume := 0; r_week52_high := 0; r_aum := 0;
                          r_expense_ratio := 0.0945; r_near_52w_pct := 100; r_rsi := 50;
                          r_prev_close := 0 |} 5000 "N/A")
    = Some (PStr nm) /\
    (exists rest, name_of empty_info "SPY" = nm ++ rest) /\
    String.length nm = Nat.min 60 (String.length (name_of empty_info "SPY")) /\
    ((String.length (name_of empty_info "SPY") <= 60)%nat -> nm = name_of empty_info "SPY").
Proof.
  apply (record_name_truncated empty_info [] "SPY"). reflexivity.
Defined.

(** X12: the name is [longName] when that key is there, else [shortName],
    else the ticker; a key that is there with [None] gives the text "None"
    and hides what comes after it. *)
Theorem name_resolution (info : QuoteSnapshot) (ticker : string) :
  (forall s, longName info = Val s -> name_of info ticker = s) /\
  (longName info = Null -> name_of info ticker = "None") /\
  (forall s, longName info = Missing -> shortName info = Val s -> name_of info ticker = s) /\
  (longName info = Missing -> shortName info = Null -> name_of info ticker = "None") /\
  (longName info = Missing -> shortName info = Missing -> name_of info ticker = ticker).
Proof.
  unfold name_of. repeat split; intros; repeat match goal with H : _ = _ |- _ => rewrite H end;
    reflexivity.
Qed.

Lemma name_resolution_witness :
  name_of null_price_info "SPY" = "None" /\ name_of empty_info "SPY" = "SPY".
Proof.
  split.
  - apply (proj1 (proj2 (name_resolution null_price_info "SPY"))). reflexivity.
  - apply (proj2 (proj2 (proj2 (proj2 (name_resolution empty_info "SPY"))))); reflexivity.
Defined.

(** ** When a record is built *)

Lemma py_int_spec (x : float) :
  is_nan x = false ->
  (is_inf x = true /\ py_int x = Raise OverflowError) \/
  (is_inf x = false /\ exists z, py_int x = Ok z).
Proof.
  rewrite is_nan_spec. unfold is_inf, py_int.
  destruct (Prim2SF x); try discriminate; intros _; eauto.
Qed.

Lemma lwowski_of_spec (aum volume : float) :
  (float_truthy aum && float_truthy volume && is_inf (liquidity_product aum volume) = true /\
   lwowski_of aum volume = Raise OverflowError) \/
  (float_truthy aum && float_truthy volume && is_inf (liquidity_product aum volume) = false /\
   exists l, lwowski_of aum volume = Ok l).
Proof.
  destruct (float_truthy aum && float_truthy volume) eqn:T.
  - rewrite (lwowski_of_truthy _ _ T), safe_float_float. cbn [bind andb].
    destruct (is_nan (liquidity_product aum volume)) eqn:N.
    + right. split; [|eexists; reflexivity].
      unfold is_inf. rewrite is_nan_spec in N.
      destruct (Prim2SF (liquidity_product aum volume)); try discriminate; reflexivity.
    + destruct (py_int_spec _ N) as [[I E]|[I [z E]]]; rewrite E, I; cbn [bind]; eauto.
  - rewrite (lwowski_of_falsy _ _ T). right. split; [reflexivity|eauto].
Qed.

Lemma aum_text_spec (aum : float) :
  is_nan aum = false ->
  (float_truthy aum && is_inf (aum / 1e6) = true /\ aum_text aum = Raise OverflowError) \/
  (float_truthy aum && is_inf (aum / 1e6) = false /\ exists s, aum_text aum = Ok s).
Proof.
  intros N. unfold aum_text. cbn [py_bool].
  destruct (float_truthy aum); cbn [andb].
  - assert (N' : is_nan (aum / 1e6) = false)
      by (eapply div_const_not_nan; [apply Prim2SF_1e6|exact N]).
    destruct (py_int_spec _ N') as [[I E]|[I [z E]]]; rewrite E, I; cbn [bind]; eauto.
  - right. eauto.
Qed.

Lemma build_record_spec (info : QuoteSnapshot) (hist : PriceSeries) (ticker : string)
    (aum volume : float) :
  aum_of info = Ok aum -> volume_of info = Ok volume ->
  (build_overflows aum volume = true /\ build_record info hist ticker = Raise OverflowError) \/
  (build_overflows aum volume = false /\ exists d, build_record info hist ticker = Ok d).
Proof.
  intros Ha Hv.
  destruct (build_record_eq info hist ticker) as (r & Hr & Hn & E).
  assert (Ea : r_aum r = aum).
  { destruct Hr as (_ & _ & _ & _ & _ & _ & A & _). congruence. }
  assert (Ev : r_volume r = volume).
  { destruct Hr as (_ & _ & _ & _ & V & _). congruence. }
  assert (Na : is_nan aum = false).
  { destruct Hn as (_ & _ & _ & A & _). congruence. }
  rewrite E, Ea, Ev. unfold build_overflows.
  destruct (lwowski_of_spec aum volume) as [[I L]|[I [l L]]]; rewrite L; cbn [bind].
  - left. split; [|reflexivity].
    apply andb_true_iff in I. destruct I as [I1 I2].
    apply andb_true_iff in I1. destruct I1 as [I0 I1].
    rewrite I0, I1, I2. cbn. apply orb_true_r.
  - destruct (aum_text_spec aum Na) as [[J S]|[J [s S]]]; rewrite S; cbn [bind].
    + left. split; [|reflexivity].
      apply andb_true_iff in J. destruct J as [J0 J1]. rewrite J0, J1. reflexivity.
    + right. split; [|eauto].
      destruct (float_truthy aum); cbn [andb] in *; [|reflexivity].
      rewrite J. cbn [orb]. exact I.
Qed.

(** X13: building a record fails only with [OverflowError], and exactly
    when one of the two integer conversions meets an infinity: for a
    non-zero AUM, [aum/1e6] is infinite, or the volume is non-zero too and
    the liquidity product is infinite. *)
Theorem build_record_fails_iff (info : QuoteSnapshot) (hist : PriceSeries)
    (ticker : string) (aum volume : float) :
  aum_of info = Ok aum -> volume_of info = Ok volume ->
  (forall e, build_record info hist ticker = Raise e -> e = OverflowError) /\
  ((exists e, build_record info hist ticker = Raise e) <-> build_overflows aum volume = true) /\
  ((exists d, build_record info hist ticker = Ok d) <-> build_overflows aum volume = false).
Proof.
  intros Ha Hv.
  destruct (build_record_spec info hist ticker aum volume Ha Hv) as [[O E]|[O [d E]]];
    rewrite E, O.
  - split; [intros e [= <-]; reflexivity|]. split; split; eauto; try discriminate.
    intros [d H]. discriminate.
  - split; [discriminate|]. split; split; eauto; try discriminate.
    intros [e H]. discriminate.
Qed.

Lemma build_record_fails_iff_witness :
  (exists e, build_record infinite_aum_info [] "SPY" = Raise e) /\
  (exists d, build_record empty_info [] "SPY" = Ok d).
Proof.
  split.
  - apply (proj1 (proj2 (build_record_fails_iff infinite_aum_info [] "SPY" infinity 0
                           eq_refl eq_refl))).
    reflexivity.
  - apply (proj2 (proj2 (build_record_fails_iff empty_info [] "SPY" 0 0 eq_refl eq_refl))).
    reflexivity.
Defined.

(** X14: [get_etf_data] never raises, and it answers [None] exactly when a
    request to the provider raises or the builder overflows; otherwise it
    answers a record. *)
Theorem get_etf_data_none_iff (yf : Provider) (ticker : string) :
  (exists r, get_etf_data yf ticker = Ok r) /\
  (get_etf_data yf ticker = Ok None <->
   (exists e, yf_info yf ticker = Raise e) \/
   (exists e, yf_history yf ticker = Raise e) \/
   (exists info aum volume,
      yf_info yf ticker = Ok info /\ aum_of info = Ok aum /\ volume_of info = Ok volume /\
      build_overflows aum volume = true)).
Proof.
  rewrite get_etf_data_eq. split; [eauto|]. unfold record_for.
  destruct (yf_info yf ticker) as [info|e].
  2:{ split; eauto. }
  destruct (aum_of_total info) as (aum & Ha & _).
  destruct (volume_of_total info) as (volume & Hv & _).
  destruct (yf_history yf ticker) as [hist|e].
  2:{ split; eauto. }
  destruct (build_record_spec info hist ticker aum volume Ha Hv) as [[O E]|[O [d E]]];
    rewrite E.
  - split; [|reflexivity]. intros _. right. right. exists info, aum, volume. auto.
  - split; [discriminate|].
    intros [[e H]|[[e H]|(i & a & v & Hi & Ha' & Hv' & Ho)]]; try discriminate.
    injection Hi as <-. congruence.
Qed.

(** X15: a quote whose AUM resolves to zero (among others, one with neither
    [totalAssets] nor [marketCap]) always gives a record, with the score
    5000 and the AUM text "N/A". *)
Theorem zero_aum_record (info : QuoteSnapshot) (hist : PriceSeries) (ticker : string)
    (aum : float) :
  aum_of info = Ok aum -> (aum =? 0)%float = true ->
  exists d,
    build_record info hist ticker = Ok d /\
    dict_get "lwowski" d = Some (PInt 5000) /\
    dict_get "aum" d = Some (PStr "N/A").
Proof.
  intros Ha Hz.
  destruct (build_record_eq info hist ticker) as (r & Hr & Hn & E).
  assert (T : float_truthy (r_aum r) = false).
  { destruct Hr as (_ & _ & _ & _ & _ & _ & A & _).
    rewrite Ha in A. injection A as <-. unfold float_truthy. rewrite Hz. reflexivity. }
  rewrite E, lwowski_of_falsy by (rewrite T; reflexivity). cbn [bind].
  unfold aum_text. cbn [py_bool]. rewrite T. cbn [bind].
  eexists. split; [reflexivity|]. split; reflexivity.
Qed.

Lemma zero_aum_record_witness :
  exists d,
    build_record empty_info [] "SPY" = Ok d /\
    dict_get "lwowski" d = Some (PInt 5000) /\
    dict_get "aum" d = Some (PStr "N/A").
Proof.
  apply (zero_aum_record empty_info [] "SPY" 0); reflexivity.
Defined.

(** ** The shape of a record *)

(** X16: a record that is built is the sixteen entries in the order of the
    source, with a string for the ticker, the name (60 characters at most),
    the asset class (one of three) and the AUM, an int for the score (from
    1000 to 99999) and the RSI, a bool for each of the four flags and a
    float that is not NaN for each of the six amounts. *)
Theorem record_schema (info : QuoteSnapshot) (hist : PriceSeries) (ticker : string)
    (d : dict) :
  build_record info hist ticker = Ok d ->
  exists nm asset l p c b1 b2 b3 s rsi n w pc v e,
    d = [ ("ticker", PStr ticker); ("name", PStr nm); ("asset", PStr asset);
          ("lwowski", PInt l); ("price", PFloat p); ("closeAbove52w", PBool c);
          ("sma50gt150", PBool b1); ("sma150gt200", PBool b2); ("sma200Slope", PBool b3);
          ("aum", PStr s); ("rsi", PInt rsi); ("near52wpct", PFloat n);
          ("week52High", PFloat w); ("prevClose", PFloat pc); ("volume", PFloat v);
          ("expense", PFloat e) ] /\
    (String.length nm <= 60)%nat /\
    In asset ["Equity"; "Fixed Income"; "Commodity"] /\
    1000 <= l <= 99999 /\
    forallb (fun x => negb (is_nan x)) [p; n; w; pc; v; e] = true.
Proof.
  intros Hb. apply build_record_ok in Hb.
  destruct Hb as (r & l & s & Hr & Hn & Hl & Hs & ->).
  destruct Hn as (Np & Nv & Nw & Na & Ne & Nn & Nc).
  unfold record_of, result_dict.
  do 15 eexists. split; [reflexivity|].
  split; [rewrite str_take_length; apply Nat.le_min_l|].
  split.
  { destruct (asset_class (name_of info ticker) ticker); simpl; auto. }
  split; [eapply lwowski_of_range; exact Hl|].
  cbn [forallb].
  rewrite !py_round_not_nan; try assumption; try reflexivity.
  - eapply mul_const_not_nan; [apply Prim2SF_100|exact Ne].
  - eapply div_const_not_nan; [apply Prim2SF_1e6|exact Nv].
Qed.

Lemma record_schema_witness :
  exists nm asset l p c b1 b2 b3 s rsi n w pc v e,
    record_of empty_info "SPY"
      {| r_sma50 := None; r_sma150 := None; r_sma200 := None;
         r_price := 0; r_volume := 0; r_week52_high := 0; r_aum := 0;
         r_expense_ratio := 0.0945; r_near_52w_pct := 100; r_rsi := 50;
         r_prev_close := 0 |} 5000 "N/A"
    = [ ("ticker", PStr "SPY"); ("name", PStr nm); ("asset", PStr asset);
        ("lwowski", PInt l); ("price", PFloat p); ("closeAbove52w", PBool c);
        ("sma50gt150", PBool b1); ("sma150gt200", PBool b2); ("sma200Slope", PBool b3);
        ("aum", PStr s); ("rsi", PInt rsi); ("near52wpct", PFloat n);
        ("week52High", PFloat w); ("prevClose", PFloat pc); ("volume", PFloat v);
        ("expense", PFloat e) ] /\
    (String.length nm <= 60)%nat /\
    In asset ["Equity"; "Fixed Income"; "Commodity"] /\
    1000 <= l <= 99999 /\
    forallb (fun x => negb (is_nan x)) [p; n; w; pc; v; e] = true.
Proof.
  apply (record_schema empty_info [] "SPY"). reflexivity.
Defined.

(** ** The batch *)

Lemma successes_app (yf : Provider) (u1 u2 : list string) :
  successes yf (u1 ++ u2) = (successes yf u1 ++ successes yf u2)%list.
Proof. unfold successes. apply flat_map_app. Qed.

Lemma get_etfs_over_eq (yf : Provider) (universe : list string) :
  get_etfs_over yf universe = Ok (success_response (successes yf universe)).
Proof.
  unfold get_etfs_over. rewrite get_etfs_loop_eq. reflexivity.
Qed.

Lemma successes_nil_iff (yf : Provider) (universe : list string) :
  successes yf universe = [] <->
  forall t, In t universe -> get_etf_data yf t = Ok None.
Proof.
  induction universe as [|t u IH]; simpl.
  - split; [intros _ t []|reflexivity].
  - split.
    + intros H t' [<-|Hin].
      * rewrite get_etf_data_eq. destruct (record_for yf t); [discriminate|reflexivity].
      * apply IH; [|exact Hin]. destruct (record_for yf t); [discriminate|exact H].
    + intros H. pose proof (H t (or_introl eq_refl)) as Ht.
      rewrite get_etf_data_eq in Ht. injection Ht as ->.
      apply IH. intros t' Hin. apply H. right. exact Hin.
Qed.

(** X17: the batch has no state across tickers: the answer for two
    universes put end to end is the records of the first followed by the
    records of the second, and its count is the sum of the two counts. *)
Theorem batch_concat (yf : Provider) (u1 u2 : list string) :
  exists r1 r2 r,
    get_etfs_over yf u1 = Ok r1 /\
    get_etfs_over yf u2 = Ok r2 /\
    get_etfs_over yf (u1 ++ u2) = Ok r /\
    data r = (data r1 ++ data r2)%list /\
    count r = Some (List.length (data r1) + List.length (data r2))%nat.
Proof.
  rewrite !get_etfs_over_eq. do 3 eexists. do 3 (split; [reflexivity|]).
  cbn [data count success_response]. rewrite successes_app, length_app. split; reflexivity.
Qed.

(** X18: the [except] branch of [get_etfs] is never taken: the answer is
    always the 200 one, with status "success" and no message; and its data
    is empty (count 0) exactly when [get_etf_data] gives [None] for every
    ticker. *)
Theorem batch_never_errors (yf : Provider) (universe : list string) :
  exists resp,
    get_etfs_over yf universe = Ok resp /\
    http_status resp = 200%nat /\ status resp = "success" /\ message resp = None /\
    ((forall t, In t universe -> get_etf_data yf t = Ok None) <->
     data resp = [] /\ count resp = Some 0%nat).
Proof.
  rewrite get_etfs_over_eq. eexists. split; [reflexivity|].
  cbn [http_status status message data count success_response].
  do 3 (split; [reflexivity|]).
  rewrite <- successes_nil_iff. split.
  - intros ->. split; reflexivity.
  - intros [H _]. exact H.
Qed.

Lemma batch_never_errors_witness :
  get_etfs down_provider =
  Ok {| status := "success"; count := Some 0%nat; message := None; data := [];
        http_status := 200 |}.
Proof.
  destruct (batch_never_errors down_provider ETF_TICKERS)
    as (resp & E & Hh & Hs & Hm & Hd).
  destruct (proj1 Hd (fun t _ => eq_refl)) as [D C].
  unfold get_etfs. rewrite E. destruct resp; simpl in *. subst. reflexivity.
Defined.

(** ** The conversion to native types *)

Lemma pyobj_induction (P : Numpy.pyobj -> Prop) :
  P Numpy.ONone -> (forall b, P (Numpy.OBool b)) -> (forall z, P (Numpy.OInt z)) ->
  (forall f, P (Numpy.OFloat f)) -> (forall s, P (Numpy.OStr s)) ->
  (forall z, P (Numpy.ONpInt z)) -> (forall f, P (Numpy.ONpFloat f)) ->
  (forall b, P (Numpy.ONpBool b)) -> (forall a, P (Numpy.ONdArray a)) ->
  (forall items, Forall (fun kv => P (snd kv)) items -> P (Numpy.ODict items)) ->
  (forall items, Forall P items -> P (Numpy.OList items)) ->
  forall obj, P obj.
Proof.
  intros H1 H2 H3 H4 H5 H6 H7 H8 H9 HD HL.
  fix IH 1. intros [ |b|z|f|s|z|f|b|a|items|items];
    [exact H1|apply H2|apply H3|apply H4|apply H5|apply H6|apply H7|apply H8|apply H9| | ].
  - apply HD. induction items as [|[k v] items IHi]; constructor; [apply IH|exact IHi].
  - apply HL. induction items as [|v items IHi]; constructor; [apply IH|exact IHi].
Qed.

Lemma tolist_native (a : Numpy.ndarray) : forallb native (Numpy.tolist a) = true.
Proof.
  destruct a as [l|l|l]; simpl; induction l; simpl; auto.
Qed.

Lemma convert_native (obj : Numpy.pyobj) :
  native (Numpy.convert_to_python_types obj) = true.
Proof.
  induction obj using pyobj_induction; simpl; auto.
  - destruct (is_nan f); reflexivity.
  - apply tolist_native.
  - induction H as [|[k v] items Hv _ IH]; simpl; auto.
    cbn [snd] in Hv. rewrite Hv. exact IH.
  - induction H as [|v items Hv _ IH]; simpl; auto.
    rewrite Hv. exact IH.
Qed.

Lemma convert_same_shape (obj : Numpy.pyobj) :
  same_shape obj (Numpy.convert_to_python_types obj).
Proof.
  induction obj using pyobj_induction; simpl; auto.
  - destruct (is_nan f); exact I.
  - induction H as [|[k v] items Hv _ IH]; simpl; auto.
  - induction H as [|v items Hv _ IH]; simpl; auto.
Qed.

(** X19: whatever the object, the result holds native values only, no NumPy
    scalar and no array at any depth, and has the shape of the object: the
    same keys in the same order, lists of the same lengths. *)
Theorem convert_gives_native (obj : Numpy.pyobj) :
  native (Numpy.convert_to_python_types obj) = true /\
  same_shape obj (Numpy.convert_to_python_types obj).
Proof.
  split; [apply convert_native|apply convert_same_shape].
Qed.

Lemma convert_scalar_obj (v : pyval) :
  Numpy.convert_to_python_types (obj_of_scalar v) = obj_of_scalar (convert_scalar v).
Proof.
  unfold convert_scalar. destruct v as [ |b|z|f|s]; simpl; try reflexivity.
  destruct (is_nan f); reflexivity.
Qed.

(** X20: on a dict of native scalars, which is what [get_etf_data] passes,
    the conversion is the one of the record: each value that [pd.isna]
    accepts becomes [None], every other value and every key is kept. *)
Theorem convert_on_scalar_dict (d : dict) :
  Numpy.convert_to_python_types (obj_of_dict d) = obj_of_dict (convert_to_python_types d).
Proof.
  unfold obj_of_dict, convert_to_python_types. simpl. f_equal.
  rewrite !map_map. apply map_ext. intros [k v]. cbn [fst snd].
  rewrite convert_scalar_obj. reflexivity.
Qed.

Lemma tolist_nan_free (a : Numpy.ndarray) :
  forallb nan_free (Numpy.tolist a) = numpy_nan_free (Numpy.ONdArray a).
Proof.
  destruct a as [l|l|l]; simpl; induction l as [|x l IH]; simpl; auto.
  rewrite IH. reflexivity.
Qed.

Lemma nan_free_convert (obj : Numpy.pyobj) :
  nan_free (Numpy.convert_to_python_types obj) = numpy_nan_free obj.
Proof.
  induction obj using pyobj_induction; try reflexivity.
  - simpl. destruct (is_nan f) eqn:N; simpl; [reflexivity|]. rewrite N. reflexivity.
  - apply tolist_nan_free.
  - simpl. induction H as [|[k v] items Hv _ IH]; simpl; [reflexivity|].
    cbn [snd] in Hv. rewrite Hv, IH. reflexivity.
  - simpl. induction H as [|v items Hv _ IH]; simpl; [reflexivity|].
    rewrite Hv, IH. reflexivity.
Qed.

Lemma native_numpy_nan_free (obj : Numpy.pyobj) :
  native obj = true -> numpy_nan_free obj = true.
Proof.
  induction obj using pyobj_induction; simpl; try reflexivity; try discriminate.
  - induction H as [|[k v] items Hv _ IH]; simpl; [reflexivity|].
    cbn [snd] in Hv. rewrite andb_true_iff. intros [A B]. rewrite Hv, IH; auto.
  - induction H as [|v items Hv _ IH]; simpl; [reflexivity|].
    rewrite andb_true_iff. intros [A B]. rewrite Hv, IH; auto.
Qed.

Lemma convert_fixed (obj : Numpy.pyobj) :
  native obj = true -> nan_free obj = true -> Numpy.convert_to_python_types obj = obj.
Proof.
  induction obj using pyobj_induction; simpl; try reflexivity; try discriminate.
  - intros _ N. apply negb_true_iff in N. rewrite N. reflexivity.
  - intros A B. f_equal.
    induction H as [|[k v] items Hv _ IH]; simpl in *; [reflexivity|].
    apply andb_true_iff in A, B. destruct A as [A1 A2], B as [B1 B2].
    rewrite Hv, IH; auto.
  - intros A B. f_equal.
    induction H as [|v items Hv _ IH]; simpl in *; [reflexivity|].
    apply andb_true_iff in A, B. destruct A as [A1 A2], B as [B1 B2].
    rewrite Hv, IH; auto.
Qed.

(** X21: a NaN of NumPy survives the conversion: the result is free of NaN
    exactly when the object holds no NumPy float that is a NaN, as a scalar
    or in an array; every native NaN has become [None], so that the result
    for an object of native values is always free of NaN. *)
Theorem convert_nan_free_iff (obj : Numpy.pyobj) :
  nan_free (Numpy.convert_to_python_types obj) = numpy_nan_free obj /\
  (native obj = true -> nan_free (Numpy.convert_to_python_types obj) = true).
Proof.
  split; [apply nan_free_convert|].
  intros N. rewrite nan_free_convert. apply native_numpy_nan_free, N.
Qed.

Lemma convert_nan_free_iff_witness :
  nan_free (Numpy.convert_to_python_types
              (Numpy.ODict [("a", Numpy.OFloat nan); ("b", Numpy.OList [Numpy.OFloat 1.5])]))
  = true.
Proof.
  apply (proj2 (convert_nan_free_iff
                  (Numpy.ODict [("a", Numpy.OFloat nan);
                                ("b", Numpy.OList [Numpy.OFloat 1.5])]))).
  reflexivity.
Defined.

(** X22: one pass is not always enough, two are: converting the result
    again changes it exactly when the object held a NumPy NaN, and the
    result of two passes is free of NaN and is left as it is by any further
    pass. *)
Theorem convert_twice (obj : Numpy.pyobj) :
  let once := Numpy.convert_to_python_types obj in
  let twice := Numpy.convert_to_python_types once in
  (twice = once <-> numpy_nan_free obj = true) /\
  nan_free twice = true /\
  Numpy.convert_to_python_types twice = twice.
Proof.
  cbv zeta.
  pose proof (convert_native obj) as N1.
  pose proof (convert_native (Numpy.convert_to_python_types obj)) as N2.
  assert (F2 : nan_free (Numpy.convert_to_python_types (Numpy.convert_to_python_types obj))
               = true).
  { rewrite nan_free_convert. apply native_numpy_nan_free, N1. }
  split; [|split; [exact F2|apply convert_fixed; assumption]].
  rewrite <- nan_free_convert. split.
  - intros E. rewrite <- E. exact F2.
  - intros F1. apply convert_fixed; assumption.
Qed.

Lemma convert_twice_witness :
  Numpy.convert_to_python_types
    (Numpy.convert_to_python_types (Numpy.OList [Numpy.ONpFloat 1.5; Numpy.OFloat nan]))
  = Numpy.convert_to_python_types (Numpy.OList [Numpy.ONpFloat 1.5; Numpy.OFloat nan]) /\
  Numpy.convert_to_python_types
    (Numpy.convert_to_python_types (Numpy.ONdArray (Numpy.NdFloat [nan])))
  <> Numpy.convert_to_python_types (Numpy.ONdArray (Numpy.NdFloat [nan])).
Proof.
  split.
  - apply (proj2 (proj1 (convert_twice (Numpy.OList [Numpy.ONpFloat 1.5; Numpy.OFloat nan])))).
    reflexivity.
  - intros E.
    apply (proj1 (proj1 (convert_twice (Numpy.ONdArray (Numpy.NdFloat [nan]))))) in E.
    discriminate E.
Defined.

(** ** The order of the floats *)

Lemma SFltb_below (m a x : spec_float) :
  m <> S754_nan -> a <> S754_nan -> x <> S754_nan ->
  SFltb m x = false -> SFltb a x = true -> SFltb m a = false.
Proof.
  unfold SFltb, SFcompare.
  destruct a as [sa|sa| |sa ma ea], x as [sx|sx| |sx mx ex], m as [sy|sy| |sy my ey];
    try congruence; intros _ _ _;
    try destruct sa; try destruct sx; try destruct sy;
    cbn -[Z.compare Pos.compare]; try congruence;
    repeat match goal with
    | |- context [Z.compare ?p ?q] => destruct (Z.compare_spec p q); subst
    | |- context [PosDef.Pos.compare_cont Eq ?p ?q] =>
        change (PosDef.Pos.compare_cont Eq p q) with (Pos.compare p q);
        destruct (Pos.compare_spec p q); subst
    end; cbn -[Z.compare Pos.compare]; try congruence; try lia.
Qed.

Lemma SFltb_above (m a x : spec_float) :
  m <> S754_nan -> a <> S754_nan -> x <> S754_nan ->
  SFltb a x = false -> SFltb m a = false -> SFltb m x = false.
Proof.
  unfold SFltb, SFcompare.
  destruct a as [sa|sa| |sa ma ea], x as [sx|sx| |sx mx ex], m as [sy|sy| |sy my ey];
    try congruence; intros _ _ _;
    try destruct sa; try destruct sx; try destruct sy;
    cbn -[Z.compare Pos.compare]; try congruence;
    repeat match goal with
    | |- context [Z.compare ?p ?q] => destruct (Z.compare_spec p q); subst
    | |- context [PosDef.Pos.compare_cont Eq ?p ?q] =>
        change (PosDef.Pos.compare_cont Eq p q) with (Pos.compare p q);
        destruct (Pos.compare_spec p q); subst
    end; cbn -[Z.compare Pos.compare]; try congruence; try lia.
Qed.

Lemma ltb_below (m a x : float) :
  is_nan m = false -> is_nan a = false -> is_nan x = false ->
  (m <? x)%float = false -> (a <? x)%float = true -> (m <? a)%float = false.
Proof.
  rewrite !is_nan_false_iff, !ltb_spec. apply SFltb_below.
Qed.

Lemma ltb_above (m a x : float) :
  is_nan m = false -> is_nan a = false -> is_nan x = false ->
  (a <? x)%float = false -> (m <? a)%float = false -> (m <? x)%float = false.
Proof.
  rewrite !is_nan_false_iff, !ltb_spec. apply SFltb_above.
Qed.

Lemma ltb_nan_r (m x : float) : is_nan x = true -> (m <? x)%float = false.
Proof.
  rewrite is_nan_spec, ltb_spec. unfold SFltb, SFcompare.
  destruct (Prim2SF x); try discriminate. intros _. destruct (Prim2SF m); reflexivity.
Qed.

Lemma ltb_irrefl (m : float) : (m <? m)%float = false.
Proof.
  rewrite ltb_spec. unfold SFltb.
  destruct (Prim2SF m) eqn:E; try reflexivity; rewrite SFcompare_refl; try reflexivity;
    intros H; discriminate.
Qed.

(** ** The 52-week high from the history *)

Lemma fold_max_spec (s : Series) (acc : option float) :
  (forall a, acc = Some a -> is_nan a = false) ->
  match
    fold_left
      (fun (acc : option float) (x : float) =>
         if is_nan x then acc
         else match acc with
              | None => Some x
              | Some a => Some (if (a <? x)%float then x else a)
              end)
      s acc
  with
  | Some m =>
      is_nan m = false /\ (In m s \/ acc = Some m) /\
      (forall x, In x s -> (m <? x)%float = false) /\
      (forall a, acc = Some a -> (m <? a)%float = false)
  | None => acc = None /\ forallb is_nan s = true
  end.
Proof.
  revert acc. induction s as [|x s IH]; intros acc Hacc.
  - simpl. destruct acc as [a|]; [|auto].
    split; [auto|]. split; [auto|]. split; [intros x []|].
    intros a' [= <-]. apply ltb_irrefl.
  - cbn [fold_left]. destruct (is_nan x) eqn:Nx.
    + specialize (IH acc Hacc). cbv beta in IH.
      destruct (fold_left _ s acc) as [m|].
      * destruct IH as (Nm & Hin & Hs & Ha). repeat split; auto.
        -- destruct Hin; [left; right; assumption|auto].
        -- intros y [<-|Hy]; [apply ltb_nan_r, Nx|auto].
      * destruct IH as [-> Hs]. split; [reflexivity|]. simpl. rewrite Nx. exact Hs.
    + destruct acc as [a|].
      * pose proof (Hacc a eq_refl) as Na.
        destruct (a <? x)%float eqn:C.
        -- specialize (IH (Some x)). cbv beta in IH.
           destruct (fold_left _ s (Some x)) as [m|].
           ++ destruct IH as (Nm & Hin & Hs & Ha); [intros ? [= <-]; exact Nx|].
              pose proof (Ha x eq_refl) as Hx.
              repeat split; auto.
              ** destruct Hin as [Hin|[= <-]]; left; [right|left]; auto.
              ** intros y [<-|Hy]; auto.
              ** intros a' [= <-]. apply (ltb_below m a x); assumption.
           ++ destruct IH as [E _]; [intros ? [= <-]; exact Nx|discriminate].
        -- specialize (IH (Some a) Hacc). cbv beta in IH.
           destruct (fold_left _ s (Some a)) as [m|].
           ++ destruct IH as (Nm & Hin & Hs & Ha).
              pose proof (Ha a eq_refl) as Hx.
              repeat split; auto.
              ** destruct Hin as [Hin|Hin]; [left; right|right]; auto.
              ** intros y [<-|Hy]; auto. apply (ltb_above m a x); assumption.
           ++ destruct IH as [E _]. discriminate.
      * specialize (IH (Some x)). cbv beta in IH.
        destruct (fold_left _ s (Some x)) as [m|].
        -- destruct IH as (Nm & Hin & Hs & Ha); [intros ? [= <-]; exact Nx|].
           repeat split; auto.
           ++ destruct Hin as [Hin|[= <-]]; left; [right|left]; auto.
           ++ intros y [<-|Hy]; auto.
           ++ intros a [=].
        -- destruct IH as [E _]; [intros ? [= <-]; exact Nx|discriminate].
Qed.

Lemma series_max_spec (s : Series) :
  (is_nan (series_max s) = true /\ forallb is_nan s = true) \/
  (is_nan (series_max s) = false /\ In (series_max s) s /\
   forall x, In x s -> (series_max s <? x)%float = false).
Proof.
  unfold series_max.
  pose proof (fold_max_spec s None) as H. cbv beta in H.
  destruct (fold_left _ s None) as [m|].
  - right. destruct H as (Nm & Hin & Hs & _); [discriminate|].
    destruct Hin as [Hin|Hin]; [|discriminate]. auto.
  - left. destruct H as [_ Hs]; [discriminate|]. split; [reflexivity|exact Hs].
Qed.

(** X23: without the key [fiftyTwoWeekHigh], the high is taken from the
    history: it is the greatest of the daily highs that are numbers (one of
    them, and none is above it), 0.0 when no daily high is a number, and
    the price itself when the history is empty. *)
Theorem week52_high_from_history (info : QuoteSnapshot) (hist : PriceSeries)
    (price : float) :
  fiftyTwoWeekHigh info = Missing ->
  (hist = [] -> is_nan price = false -> week52_high_of info hist price = Ok price) /\
  (hist <> [] ->
   exists w,
     week52_high_of info hist price = Ok w /\ is_nan w = false /\
     (forall h, In h (hist_high hist) -> (w <? h)%float = false) /\
     (In w (hist_high hist) \/ (w = 0%float /\ forallb is_nan (hist_high hist) = true))).
Proof.
  intros Hk. unfold week52_high_of. rewrite Hk. cbn [info_get]. split.
  - intros -> Np. cbn [hist_empty negb]. rewrite safe_float_float, Np. reflexivity.
  - intros Hne. destruct hist as [|b hist]; [congruence|].
    cbn [hist_empty negb]. rewrite safe_float_float.
    destruct (series_max_spec (hist_high (b :: hist))) as [[N Hall]|(N & Hin & Hmax)];
      rewrite N.
    + exists 0%float. split; [reflexivity|]. split; [reflexivity|]. split; [|auto].
      intros h Hh. apply ltb_nan_r.
      rewrite forallb_forall in Hall. apply Hall, Hh.
    + eexists. split; [reflexivity|]. auto.
Qed.

Lemma week52_high_from_history_witness :
  week52_high_of empty_info [] 7 = Ok 7%float /\
  exists w,
    week52_high_of empty_info three_highs 7 = Ok w /\ is_nan w = false /\
    (forall h, In h (hist_high three_highs) -> (w <? h)%float = false) /\
    (In w (hist_high three_highs) \/
     (w = 0%float /\ forallb is_nan (hist_high three_highs) = true)).
Proof.
  split.
  - apply (proj1 (week52_high_from_history empty_info [] 7 eq_refl)); reflexivity.
  - apply (proj2 (week52_high_from_history empty_info three_highs 7 eq_refl)). discriminate.
Defined.

(** ** RSI of a history without rises *)

(** A zero over a positive number is a zero. *)
Lemma div_zero_by_pos (g l : float) :
  (g =? 0)%float = true -> (0 <? l)%float = true ->
  (g / l)%float = 0%float \/ (g / l)%float = (-0)%float.
Proof.
  intros Hg Hl.
  rewrite eqb_zero_spec in Hg. rewrite ltb_zero_spec in Hl.
  assert (E : exists s, Prim2SF (g / l) = S754_zero s).
  { rewrite div_spec.
    destruct (Prim2SF g) as [sg| | |]; try discriminate.
    destruct (Prim2SF l) as [| [|] | | [|] m e]; try discriminate; simpl; eauto. }
  destruct E as [s E].
  rewrite <- (SF2Prim_Prim2SF (g / l)), E.
  destruct s; [right|left]; reflexivity.
Qed.

Lemma record_rsi (info : QuoteSnapshot) (hist : PriceSeries) (ticker : string)
    (d : dict) (r : Z) :
  rsi_of hist = Ok r -> build_record info hist ticker = Ok d ->
  dict_get "rsi" d = Some (PInt r).
Proof.
  intros R Hb.
  apply build_record_ok in Hb. destruct Hb as (rv & l & s & Hr & _ & _ & _ & ->).
  destruct Hr as (_ & _ & _ & _ & _ & _ & _ & _ & _ & Hrsi & _).
  rewrite R in Hrsi. inversion Hrsi as [Hrsi']. unfold record_of, result_dict.
  simpl dict_get. rewrite <- Hrsi'. reflexivity.
Qed.

(** X24: when the 14-row mean of rises is zero and that of falls is
    positive (only falls in the window), the RSI is 0, in [rsi_of] and in
    the record. *)
Theorem rsi_zero_gain (hist : PriceSeries) :
  (14 <= List.length hist)%nat ->
  (mean_gain hist =? 0)%float = true ->
  (0 <? mean_loss hist)%float = true ->
  rsi_of hist = Ok 0 /\
  forall info ticker d,
    build_record info hist ticker = Ok d -> dict_get "rsi" d = Some (PInt 0).
Proof.
  intros Hlen Hgain Hloss.
  assert (R : rsi_of hist = Ok 0).
  { unfold rsi_of.
    rewrite (hist_empty_false hist 14) by lia.
    destruct (14 <=? List.length hist)%nat eqn:C; [|apply Nat.leb_gt in C; lia].
    cbn [negb andb]. cbv zeta.
    rewrite series_div_last.
    2:{ rewrite rsi_gain_length, rsi_loss_length. reflexivity. }
    2:{ intros E. apply (f_equal (@List.length _)) in E.
        rewrite rsi_gain_length in E. simpl in E. lia. }
    cbn [bind].
    destruct (div_zero_by_pos _ _ Hgain Hloss) as [E|E];
      fold (mean_gain hist) (mean_loss hist) in E |- *; rewrite E; reflexivity. }
  split; [exact R|].
  intros info ticker d. apply record_rsi, R.
Qed.

Lemma rsi_zero_gain_witness :
  rsi_of falling_history = Ok 0 /\
  forall info ticker d,
    build_record info falling_history ticker = Ok d -> dict_get "rsi" d = Some (PInt 0).
Proof.
  apply (rsi_zero_gain falling_history); vm_compute; [lia|reflexivity|reflexivity].
Defined.

(** ** NaN and [safe_float] *)

(** X25: [safe_float] gives a NaN only when its default is one or when the
    value is a string (the text "nan"): for [None], a bool, an int or a
    float, the result with a default that is a number is a number. *)
Theorem safe_float_nan_only_from_str (v : pyval) (d x : float) :
  safe_float v d = Ok x -> is_nan x = true ->
  is_nan d = true \/ exists s, v = PStr s.
Proof.
  intros Hs Hx.
  destruct v as [ |b|z|f|s]; [| | | |right; eauto]; left.
  - rewrite safe_float_None in Hs. congruence.
  - unfold safe_float in Hs. simpl in Hs. injection Hs as <-. destruct b; discriminate.
  - destruct (is_nan d) eqn:Nd; [reflexivity|].
    destruct (safe_float_numeric (PInt z) d I Nd) as (y & Hy & Ny). congruence.
  - destruct (is_nan d) eqn:Nd; [reflexivity|].
    destruct (safe_float_numeric (PFloat f) d I Nd) as (y & Hy & Ny). congruence.
Qed.

Lemma safe_float_nan_only_from_str_witness :
  is_nan 0 = true \/ exists s, PStr " NaN " = PStr s.
Proof.
  apply (safe_float_nan_only_from_str (PStr " NaN ") 0 nan); reflexivity.
Defined.

(** ** The universe *)

Lemma distinct_NoDup (l : list string) : distinct l = true -> NoDup l.
Proof.
  induction l as [|x l IH]; simpl; [constructor|].
  rewrite andb_true_iff, negb_true_iff. intros [Hx Hl].
  constructor; [|apply IH, Hl].
  intros Hin. assert (E : existsb (String.eqb x) l = true).
  { apply existsb_exists. exists x. split; [exact Hin|apply String.eqb_refl]. }
  congruence.
Qed.

Lemma NoDup_map_ticker (l : list string) :
  NoDup l -> NoDup (map (fun t => Some (PStr t)) l).
Proof.
  induction 1 as [|x l Hx Hl IH]; simpl; constructor; [|exact IH].
  rewrite in_map_iff. intros (y & [= ->] & Hy). contradiction.
Qed.

Lemma successes_from (yf : Provider) (universe : list string) (d : dict) :
  In d (successes yf universe) ->
  exists t, In t universe /\ get_etf_data yf t = Ok (Some d) /\
            ticker_of d = Some (PStr t).
Proof.
  unfold successes. rewrite in_flat_map. intros (t & Ht & Hd).
  exists t. rewrite get_etf_data_eq.
  destruct (record_for yf t) as [d'|] eqn:E; [|destruct Hd].
  destruct Hd as [<-|[]]. split; [exact Ht|]. split; [reflexivity|].
  apply (record_for_complete yf t d' E).
Qed.

(** X26: the endpoint answers at most 80 records, each the record that
    [get_etf_data] gives for a ticker of [ETF_TICKERS] and carrying that
    ticker, and no ticker comes twice. *)
Theorem get_etfs_distinct (yf : Provider) :
  exists resp,
    get_etfs yf = Ok resp /\
    (List.length (data resp) <= 80)%nat /\
    NoDup (map ticker_of (data resp)) /\
    forall d, In d (data resp) ->
      exists t, In t ETF_TICKERS /\ get_etf_data yf t = Ok (Some d) /\
                ticker_of d = Some (PStr t).
Proof.
  unfold get_etfs. rewrite get_etfs_over_eq. eexists. split; [reflexivity|].
  cbn [data success_response]. split; [|split].
  - pose proof (successes_failures_length yf ETF_TICKERS) as H.
    change (List.length ETF_TICKERS) with 80%nat in H. lia.
  - rewrite successes_tickers.
    apply NoDup_map_ticker, NoDup_filter, distinct_NoDup. vm_compute. reflexivity.
  - apply successes_from.
Qed.
